(** * charity-coders-api: routes, ownership and error normalisation

    A shallow embedding of the three Express routers
    ([organization_route.js], [volunteer_routes.js], the project router) and
    of the Mongoose schemas they use, followed by the properties stated for
    them.

    Conventions of the embedding:
    - a document is the JavaScript object Mongoose hands to the route: its
      [_id] and a finite map from path names to values.  The schemas under
      [app/models] declare only [String] paths and one [ObjectId] path, and
      an ObjectId travels as its hexadecimal string, so values are strings;
    - in the first part [req.body.<resource>] is an object whose values are
      strings, a finite map from keys to strings; the second part follows
      the POST and PATCH routes on any value the body parser can produce
      (an array, an object with nested objects, [null], nothing at all),
      with Mongoose as a parameter, and agrees with the first part on
      objects of strings ([raw_router_on_strings]);
    - a promise chain [p.then(f).catch(h)] is a computation over the store
      that settles as fulfilled or rejected and records what it did (store
      calls, failures raised, responses written);
    - the document store is Mongoose/MongoDB, which is not code of this
      repository: it is an in-memory collection per model together with an
      oracle that lets any store call fail (malformed identifier, lost
      connection, ...).  Timestamps kept by the store are not modelled. *)

From stdpp Require Import gmap strings list fin_maps.

Open Scope string_scope.
Open Scope list_scope.

Set Warnings "-clear-no-such-hyp,-register-all".

(** ** Data model *)

Abbreviation ObjectId := string (only parsing).

(** A stored document: [_id] and the paths it carries. *)
Record Doc := { _id : ObjectId; props : gmap string string }.

(** [resource.owner] *)
Definition owner (d : Doc) : option ObjectId := props d !! "owner".

(** The caller identity that the bearer strategy puts in [req.user]. *)
Record User := { id : ObjectId }.

Inductive Model := Organization | Project | Volunteer.

Inductive StoreOp := find | findById | create | update | remove.

(** Modelled from the spec: the error classes of [lib/custom_errors] and
    of Mongoose are not among the sources; section 7 gives the failure
    conditions a request can raise. *)
Inductive Failure :=
| NotFound
| Forbidden
| ValidationError (detail : list string)
| CastError
| Unclassified (message : string).

Inductive Body :=
| NoBody
| JsonDoc (key : string) (d : Doc)
| JsonDocs (key : string) (ds : list Doc)
| JsonValidation (detail : list string)
| JsonMessage (message : string).

Record Response := { status : nat; body : Body }.

(** What a request did, in order. *)
Inductive Event :=
| StoreCall (m : Model) (op : StoreOp)
| Raised (e : Failure)
| Unhandled (e : Failure)
| Sent (r : Response).

(** The state a request runs against. *)
Record World := {
  organizations : gmap string (gmap string string);
  projects : gmap string (gmap string string);
  volunteers : gmap string (gmap string string);
  (** bearer token -> identity, the identity provider's table *)
  tokens : gmap string User;
  (** the store call that fails, and how *)
  faults : Model -> StoreOp -> option Failure
}.

Record Request := {
  (** the bearer credential of the [Authorization] header *)
  credential : option string;
  (** [req.params.id] *)
  params_id : string;
  (** [req.body.<resource>] *)
  req_body : gmap string string
}.

Global Instance Model_eq_dec : EqDecision Model.
Proof. solve_decision. Defined.

Definition collection (m : Model) (w : World) : gmap string (gmap string string) :=
  match m with
  | Organization => organizations w
  | Project => projects w
  | Volunteer => volunteers w
  end.

Definition set_collection (m : Model) (c : gmap string (gmap string string))
    (w : World) : World :=
  match m with
  | Organization =>
      {| organizations := c; projects := projects w; volunteers := volunteers w;
         tokens := tokens w; faults := faults w |}
  | Project =>
      {| organizations := organizations w; projects := c; volunteers := volunteers w;
         tokens := tokens w; faults := faults w |}
  | Volunteer =>
      {| organizations := organizations w; projects := projects w; volunteers := c;
         tokens := tokens w; faults := faults w |}
  end.

(** ** Promises *)

Inductive Settled (A : Type) :=
| Fulfilled (a : A)
| Rejected (e : Failure).
Arguments Fulfilled {A} a.
Arguments Rejected {A} e.

(** A promise runs against the world, settles, and leaves a trace. *)
Definition Promise (A : Type) : Type := World -> Settled A * World * list Event.

Definition resolve {A} (a : A) : Promise A := fun w => (Fulfilled a, w, []).

(** [throw err] inside a [.then] callback *)
Definition throw {A} (e : Failure) : Promise A := fun w => (Rejected e, w, [Raised e]).

(** [p.then(f)] *)
Definition then_ {A B} (p : Promise A) (f : A -> Promise B) : Promise B :=
  fun w =>
    match p w with
    | (Fulfilled a, w1, t1) =>
        match f a w1 with
        | (r, w2, t2) => (r, w2, t1 ++ t2)
        end
    | (Rejected e, w1, t1) => (Rejected e, w1, t1)
    end.

(** [p.catch(h)] *)
Definition catch {A} (p : Promise A) (h : Failure -> Promise A) : Promise A :=
  fun w =>
    match p w with
    | (Fulfilled a, w1, t1) => (Fulfilled a, w1, t1)
    | (Rejected e, w1, t1) =>
        match h e w1 with
        | (r, w2, t2) => (r, w2, t1 ++ t2)
        end
    end.

(** A promise that is started but that the chain does not wait for: its
    effect on the store happens, its rejection reaches no handler. *)
Definition floating {A} (p : Promise A) : Promise unit :=
  fun w =>
    match p w with
    | (Fulfilled _, w1, t1) => (Fulfilled tt, w1, t1)
    | (Rejected e, w1, t1) => (Fulfilled tt, w1, t1 ++ [Unhandled e])
    end.

(** Two statements in a row inside one callback. *)
Notation "p ;;; k" := (then_ p (fun _ => k))
  (at level 100, right associativity).

Notation "p 'THEN' f" := (then_ p f) (at level 66, left associativity).
Notation "p 'CATCH' h" := (catch p h) (at level 66, left associativity).

(** ** Express response object *)

(** [res.status(s).json(b)] *)
Definition res_status_json (s : nat) (b : Body) : Promise unit :=
  fun w => (Fulfilled tt, w, [Sent {| status := s; body := b |}]).

(** [res.sendStatus(s)] *)
Definition res_sendStatus (s : nat) : Promise unit :=
  fun w => (Fulfilled tt, w, [Sent {| status := s; body := NoBody |}]).

(** ** Schemas ([app/models]) *)

(** Every path of the three schemas is declared [required: true]; a schema
    is the list of its paths.  The option [{ timestamps: true }] adds
    [createdAt] and [updatedAt], which the store sets by the clock: they
    are not modelled. *)
Definition volunteerSchema : list string := ["description"; "skills"; "owner"].

Definition projectSchema : list string :=
  ["name"; "type"; "description"; "desiredskills"; "owner"].

(** A required path is satisfied by a value that is present and, for a
    string, not empty. *)
Definition is_set (o : gmap string string) (path : string) : bool :=
  match o !! path with
  | Some v => bool_decide (v <> "")
  | None => false
  end.

(** The paths that fail, in the order of the schema (the order in which
    Mongoose reports them is not modelled). *)
Definition invalid_paths (schema : list string) (o : gmap string string) : list string :=
  List.filter (fun path => negb (is_set o path)) schema.

(** Strict mode: keys that are not paths of the schema are dropped. *)
Definition strict (schema : list string) (o : gmap string string) : gmap string string :=
  filter (fun kv => kv.1 ∈ schema) o.

(** [document.toObject()] *)
Definition toObject (d : Doc) : Doc := d.

(** Does a document satisfy the conditions object of [find]? *)
Definition matches (conditions : gmap string string) (o : gmap string string) : Prop :=
  map_Forall (fun k v => o !! k = Some v) conditions.

Global Instance matches_dec conditions o : Decision (matches conditions o).
Proof. unfold matches. apply _. Defined.

(** The documents of a collection, as a query returns them. *)
Definition docs_of (c : gmap string (gmap string string)) : list Doc :=
  (fun kv => {| _id := kv.1; props := kv.2 |}) <$> map_to_list c.

(** [Object.keys(o)] *)
Definition Object_keys (o : gmap string string) : list string := (map_to_list o).*1.

(** [Object.keys(o).forEach(key => { if (o[key] === '') delete o[key] })] *)
Definition delete_empty_strings (o : gmap string string) : gmap string string :=
  foldl (fun acc key => if decide (acc !! key = Some "") then delete key acc else acc)
        o (Object_keys o).

(** [o.owner = v], where [v] may be [undefined]: Mongoose treats a path
    whose value is [undefined] as not set. *)
Definition assign_owner (v : option string) (o : gmap string string) : gmap string string :=
  match v with
  | Some x => <["owner" := x]> o
  | None => delete "owner" o
  end.

(** Update payload sanitisation as the PATCH routes perform it: the [owner]
    key goes first, the keys holding an empty string after it. *)
Definition sanitize (o : gmap string string) : gmap string string :=
  delete_empty_strings (delete "owner" o).

(** ** Helpers of [lib/], which is not among the sources *)

(** Modelled from the spec: [lib/custom_errors] is missing; section 4.1 has
    [handle404] produce the resource if the lookup found one and fail with
    [NotFound], carrying no payload, otherwise. *)
Definition handle404 (record : option Doc) : Promise Doc :=
  match record with
  | Some d => resolve d
  | None => throw NotFound
  end.

(** Modelled from the spec: [lib/custom_errors] is missing; section 4.2 has
    [requireOwnership] succeed silently if [resource.owner == caller.id] and
    fail with [Forbidden] otherwise. *)
Definition requireOwnership (user : User) (resource : Doc) : Promise unit :=
  if decide (owner resource = Some (id user)) then resolve tt else throw Forbidden.

(** Modelled from the spec: [lib/error_handler] is missing; the table of
    section 4.4 gives the response for each failure condition. *)
Definition error_response (e : Failure) : Response :=
  match e with
  | NotFound => {| status := 404; body := NoBody |}
  | Forbidden => {| status := 401; body := NoBody |}
  | ValidationError detail => {| status := 422; body := JsonValidation detail |}
  | CastError => {| status := 400; body := NoBody |}
  | Unclassified message => {| status := 500; body := JsonMessage message |}
  end.

Definition handle (err : Failure) : Promise unit :=
  fun w => (Fulfilled tt, w, [Sent (error_response err)]).

(** Modelled from the spec: the bearer strategy is missing; section 6 has
    the identity provider map a credential to an identity or fail. *)
Definition authenticate (w : World) (req : Request) : option User :=
  match credential req with
  | Some token => tokens w !! token
  | None => None
  end.

(** The event of a response with status [s] and body [b]. *)
Definition sent (s : nat) (b : Body) : Event := Sent {| status := s; body := b |}.

(** The responses written during a request. *)
Definition responses (t : list Event) : list Response :=
  omap (fun ev => match ev with Sent r => Some r | _ => None end) t.

(** The request [req] with another body. *)
Definition set_body (b : gmap string string) (req : Request) : Request :=
  {| credential := credential req; params_id := params_id req; req_body := b |}.

(** ** The resource as the client sent it

    The definitions above take [req.body.<resource>] to be an object whose
    values are strings.  The body parser hands the routes whatever JSON the
    client sent: the definitions below follow the statements of the POST
    and PATCH routes on any JavaScript value. *)

Inductive JsValue :=
| JUndefined
| JNull
| JBoolean (b : bool)
(** a number, as the client wrote it *)
| JNumber (literal : string)
| JString (s : string)
| JArray (elements : list JsValue)
| JObject (members : gmap string JsValue).

(** [o.owner = v]; [None] is the TypeError of setting a property of
    [undefined] or [null].  On an array the assignment makes a property of
    the array object and leaves its elements as they are; on a boolean, a
    number or a string it does nothing. *)
Definition js_set_owner (v : JsValue) (o : JsValue) : option JsValue :=
  match o with
  | JUndefined | JNull => None
  | JObject members => Some (JObject (<["owner" := v]> members))
  | _ => Some o
  end.

(** [o.organization_id]; [None] is the TypeError of reading a property of
    [undefined] or [null]. *)
Definition js_organization_id (o : JsValue) : option JsValue :=
  match o with
  | JUndefined | JNull => None
  | JObject members => Some (default JUndefined (members !! "organization_id"))
  | _ => Some JUndefined
  end.

(** [delete o.owner] *)
Definition js_delete_owner (o : JsValue) : option JsValue :=
  match o with
  | JUndefined | JNull => None
  | JObject members => Some (JObject (delete "owner" members))
  | _ => Some o
  end.

(** The loop [Object.keys(o).forEach(key => { if (o[key] === '') delete
    o[key] })] on the members of an object: [===] holds of the empty string
    and of nothing else. *)
Definition js_delete_empty_members (members : gmap string JsValue) : gmap string JsValue :=
  foldl (fun acc key =>
           match acc !! key with
           | Some (JString "") => delete key acc
           | _ => acc
           end)
        members (map_to_list members).*1.

(** The same loop on any value; [None] is the TypeError of [Object.keys] on
    [undefined] or [null].  The keys of an array are its indices, and a
    deleted element reads [undefined] afterwards; a boolean, a number or a
    string has no key whose value is the empty string. *)
Definition js_delete_empty_strings (o : JsValue) : option JsValue :=
  match o with
  | JUndefined | JNull => None
  | JObject members => Some (JObject (js_delete_empty_members members))
  | JArray elements =>
      Some (JArray ((fun v => match v with JString "" => JUndefined | _ => v end)
                      <$> elements))
  | _ => Some o
  end.

(** [v === ''] *)
Definition js_is_empty_string (v : JsValue) : bool :=
  match v with
  | JString "" => true
  | _ => false
  end.

(** [o[key] === ''] *)
Definition empty_at (members : gmap string JsValue) (key : string) : bool :=
  match members !! key with
  | Some v => js_is_empty_string v
  | None => false
  end.

(** What a PATCH route makes of the members of an object body before it
    hands them to [update]. *)
Definition js_sanitize (members : gmap string JsValue) : gmap string JsValue :=
  js_delete_empty_members (delete "owner" members).

(** What [Model.create] settles with: one document for an object, the
    array of the documents for an array. *)
Inductive Created :=
| One (d : Doc)
| Many (ds : list Doc).

(** The two calls that receive the client's value.  Mongoose is not code of
    this repository: what it does with a value is a parameter, of which the
    properties assume only what they state. *)
Record Mongoose := {
  (** [Model.create(value)] *)
  create_js : Model -> JsValue -> Promise Created;
  (** [document.update(value)] *)
  update_js : Model -> Doc -> JsValue -> Promise unit
}.

Record RawRequest := {
  raw_credential : option string;
  (** [req.params.id] *)
  raw_params_id : string;
  (** [req.body.<resource>], [JUndefined] when the body has no such key *)
  raw_body : JsValue
}.

(** The credential and the parameters of a request, for the parts of a
    route that do not read the body. *)
Definition flat_request (req : RawRequest) : Request :=
  {| credential := raw_credential req; params_id := raw_params_id req; req_body := ∅ |}.

(** What became of a request: the handler threw before it returned (the
    TypeError goes to Express, outside the routes), or it ran and left a
    world and a trace. *)
Inductive Handled :=
| ThrewTypeError
| Ran (w : World) (t : list Event).

Definition ran (r : World * list Event) : Handled := Ran r.1 r.2.

(** The string members of an object. *)
Definition js_strings (members : gmap string JsValue) : gmap string string :=
  omap (fun v => match v with JString s => Some s | _ => None end) members.

(** ** Sample data

    Two users [U1] and [U2] with their tokens, one organization, one project
    of that organization and one volunteer, both made by [U1]. *)

Definition no_faults : Model -> StoreOp -> option Failure := fun _ _ => None.

Definition sample_world : World :=
  {| organizations := {[ "a1" := {[ "name" := "Shelter"; "owner" := "U1" ]} ]};
     projects :=
       {[ "b1" := {[ "name" := "Site"; "type" := "web"; "description" := "new site";
                     "desiredskills" := "html"; "owner" := "a1" ]} ]};
     volunteers :=
       {[ "c1" := {[ "description" := "help"; "skills" := "driving"; "owner" := "U1" ]} ]};
     tokens := {[ "token1" := {| id := "U1" |}; "token2" := {| id := "U2" |} ]};
     faults := no_faults |}.

(** The same world with a store whose [remove] fails. *)
Definition remove_fails : Model -> StoreOp -> option Failure :=
  fun _ op => match op with
              | remove => Some (Unclassified "connection lost")
              | _ => None
              end.

Definition failing_world : World :=
  {| organizations := organizations sample_world;
     projects := projects sample_world;
     volunteers := volunteers sample_world;
     tokens := tokens sample_world;
     faults := remove_fails |}.

Definition request (token : option string) (i : string) (b : gmap string string) : Request :=
  {| credential := token; params_id := i; req_body := b |}.

Definition U1 : User := {| id := "U1" |}.
Definition U2 : User := {| id := "U2" |}.

(** The organization paths of the examples: [name], the field the
    scenarios of the specification use. *)
Definition sample_paths : list string := ["name"].

Definition new_project : gmap string string :=
  {[ "name" := "Garden"; "type" := "outdoor"; "description" := "plant trees";
     "desiredskills" := "digging"; "organization_id" := "a1" ]}.

Definition raw_request (token : option string) (i : string) (v : JsValue) : RawRequest :=
  {| raw_credential := token; raw_params_id := i; raw_body := v |}.

(** An array of one volunteer that names U2 as its owner. *)
Definition volunteers_of_U2 : JsValue :=
  JArray [JObject {[ "description" := JString "help"; "skills" := JString "driving";
                     "owner" := JString "U2" ]}].

(** An update with an [owner] key and a [$set] operator on [owner]. *)
Definition owner_by_operator : JsValue :=
  JObject {[ "owner" := JString "U2";
             "$set" := JObject {[ "owner" := JString "U2" ]} ]}.

Section Routes.

(** The paths of the organization schema other than [owner]:
    [app/models/organization] is not among the sources. *)
Variable organization_paths : list string.

(** Modelled from the spec: [app/models/organization] is missing; section 3
    gives every resource an [owner] reference next to its domain fields. *)
Definition organizationSchema : list string := organization_paths ++ ["owner"].

Definition schema (m : Model) : list string :=
  match m with
  | Organization => organizationSchema
  | Project => projectSchema
  | Volunteer => volunteerSchema
  end.

(** ** The store (Mongoose model and document methods) *)

(** A store call that the oracle may fail. *)
Definition store_call {A} (m : Model) (op : StoreOp) (run : World -> A * World) : Promise A :=
  fun w =>
    match faults w m op with
    | Some e => (Rejected e, w, [StoreCall m op; Raised e])
    | None => let (a, w') := run w in (Fulfilled a, w', [StoreCall m op])
    end.

(** [Model.find(conditions)] *)
Definition Model_find (m : Model) (conditions : gmap string string) : Promise (list Doc) :=
  store_call m find (fun w =>
    (docs_of (filter (fun kv => matches conditions kv.2) (collection m w)), w)).

(** [Model.findById(id)] *)
Definition Model_findById (m : Model) (i : ObjectId) : Promise (option Doc) :=
  store_call m findById (fun w =>
    ((fun o => {| _id := i; props := o |}) <$> collection m w !! i, w)).

(** [Model.create(fields)]: the document is built from the paths of the
    schema, validated, given a new [_id] and inserted. *)
Definition Model_create (m : Model) (fields : gmap string string) : Promise Doc :=
  fun w =>
    let o := strict (schema m) fields in
    match invalid_paths (schema m) o with
    | [] =>
        store_call m create (fun w =>
          let i := fresh (dom (collection m w)) in
          ({| _id := i; props := o |},
           set_collection m (<[i := o]> (collection m w)) w)) w
    | bad =>
        (Rejected (ValidationError bad), w,
         [StoreCall m create; Raised (ValidationError bad)])
    end.

(** [document.update(fields)]: the paths of the schema found in [fields]
    are set on the stored document, the others are left as they are. *)
Definition Document_update (m : Model) (d : Doc) (fields : gmap string string) : Promise unit :=
  store_call m update (fun w =>
    (tt, set_collection m
           (alter (fun o => strict (schema m) fields ∪ o) (_id d) (collection m w)) w)).

(** [document.remove()] *)
Definition Document_remove (m : Model) (d : Doc) : Promise unit :=
  store_call m remove (fun w =>
    (tt, set_collection m (delete (_id d) (collection m w)) w)).

(** The key a document of the model is sent under, and its plural. *)
Definition singular (m : Model) : string :=
  match m with
  | Organization => "organization"
  | Project => "project"
  | Volunteer => "volunteer"
  end.

Definition plural (m : Model) : string :=
  match m with
  | Organization => "organizations"
  | Project => "projects"
  | Volunteer => "volunteers"
  end.

(** ** Route handlers *)

(** [GET /organizations] *)
Definition organizations_index (user : User) (req : Request) : Promise unit :=
  Model_find Organization {[ "owner" := id user ]}
    THEN (fun organizations => resolve (toObject <$> organizations))
    THEN (fun organizations =>
            res_status_json 200 (JsonDocs "organizations" organizations))
    CATCH (fun err => handle err).

(** [GET /volunteers] and [GET /projects] *)
Definition index (m : Model) (user : User) (req : Request) : Promise unit :=
  Model_find m ∅
    THEN (fun records => resolve (toObject <$> records))
    THEN (fun records => res_status_json 200 (JsonDocs (plural m) records))
    CATCH (fun err => handle err).

(** [GET /projects/:id], registered without [requireToken] *)
Definition projects_of_owner (req : Request) : Promise unit :=
  Model_find Project {[ "owner" := params_id req ]}
    THEN (fun projects => resolve (toObject <$> projects))
    THEN (fun projects => res_status_json 200 (JsonDocs "projects" projects))
    CATCH (fun err => handle err).

(** [GET /organizations/:id] and [GET /volunteers/:id] *)
Definition show (m : Model) (user : User) (req : Request) : Promise unit :=
  Model_findById m (params_id req)
    THEN handle404
    THEN (fun record => res_status_json 200 (JsonDoc (singular m) (toObject record)))
    CATCH (fun err => handle err).

(** [POST /organizations] and [POST /volunteers] *)
Definition create_owned (m : Model) (user : User) (req : Request) : Promise unit :=
  let fields := assign_owner (Some (id user)) (req_body req) in
  Model_create m fields
    THEN (fun record => res_status_json 201 (JsonDoc (singular m) (toObject record)))
    CATCH (fun err => handle err).

(** [POST /projects] *)
Definition projects_create (user : User) (req : Request) : Promise unit :=
  let fields := assign_owner (req_body req !! "organization_id") (req_body req) in
  Model_create Project fields
    THEN (fun project => res_status_json 201 (JsonDoc "project" (toObject project)))
    CATCH (fun err => handle err).

(** [PATCH /<resource>/:id] *)
Definition patch (m : Model) (user : User) (req : Request) : Promise unit :=
  let fields := delete "owner" (req_body req) in
  Model_findById m (params_id req)
    THEN handle404
    THEN (fun record =>
            requireOwnership user record ;;;
            let fields := delete_empty_strings fields in
            Document_update m record fields)
    THEN (fun _ => res_sendStatus 204)
    CATCH (fun err => handle err).

(** [DELETE /<resource>/:id]: the callback calls [remove()] and returns
    nothing, so the chain goes on without the promise of the removal. *)
Definition destroy (m : Model) (user : User) (req : Request) : Promise unit :=
  Model_findById m (params_id req)
    THEN handle404
    THEN (fun record =>
            requireOwnership user record ;;;
            floating (Document_remove m record))
    THEN (fun _ => res_sendStatus 204)
    CATCH (fun err => handle err).

(** ** The routers *)

(** What a request leaves behind: the world and the trace. *)
Definition serve (p : Promise unit) (w : World) : World * list Event :=
  match p w with
  | (_, w', t) => (w', t)
  end.

(** [passport.authenticate('bearer', { session: false })]: the route runs
    with [req.user] set, or the request is answered 401 and the route does
    not run. *)
Definition requireToken (route : User -> Request -> Promise unit)
    (req : Request) (w : World) : World * list Event :=
  match authenticate w req with
  | Some user => serve (route user req) w
  | None => (w, [Sent {| status := 401; body := NoBody |}])
  end.

(** The routes the three routers register. *)
Inductive Endpoint :=
| GET_organizations | GET_organizations_id | POST_organizations
| PATCH_organizations_id | DELETE_organizations_id
| GET_projects_id | GET_projects | POST_projects
| PATCH_projects_id | DELETE_projects_id
| GET_volunteers | GET_volunteers_id | POST_volunteers
| PATCH_volunteers_id | DELETE_volunteers_id.

Definition router (e : Endpoint) (req : Request) (w : World) : World * list Event :=
  match e with
  | GET_organizations => requireToken organizations_index req w
  | GET_organizations_id => requireToken (show Organization) req w
  | POST_organizations => requireToken (create_owned Organization) req w
  | PATCH_organizations_id => requireToken (patch Organization) req w
  | DELETE_organizations_id => requireToken (destroy Organization) req w
  | GET_projects_id => serve (projects_of_owner req) w
  | GET_projects => requireToken (index Project) req w
  | POST_projects => requireToken projects_create req w
  | PATCH_projects_id => requireToken (patch Project) req w
  | DELETE_projects_id => requireToken (destroy Project) req w
  | GET_volunteers => requireToken (index Volunteer) req w
  | GET_volunteers_id => requireToken (show Volunteer) req w
  | POST_volunteers => requireToken (create_owned Volunteer) req w
  | PATCH_volunteers_id => requireToken (patch Volunteer) req w
  | DELETE_volunteers_id => requireToken (destroy Volunteer) req w
  end.

(** The five operations of a resource and the route that serves each; the
    only route of the project router that takes an identifier with GET is
    [GET /projects/:id]. *)
Inductive Operation := List | Show | Create | Update | Delete.

Definition endpoint (m : Model) (op : Operation) : Endpoint :=
  match m, op with
  | Organization, List => GET_organizations
  | Organization, Show => GET_organizations_id
  | Organization, Create => POST_organizations
  | Organization, Update => PATCH_organizations_id
  | Organization, Delete => DELETE_organizations_id
  | Project, List => GET_projects
  | Project, Show => GET_projects_id
  | Project, Create => POST_projects
  | Project, Update => PATCH_projects_id
  | Project, Delete => DELETE_projects_id
  | Volunteer, List => GET_volunteers
  | Volunteer, Show => GET_volunteers_id
  | Volunteer, Create => POST_volunteers
  | Volunteer, Update => PATCH_volunteers_id
  | Volunteer, Delete => DELETE_volunteers_id
  end.

(** ** The POST and PATCH routes on the value the client sent *)

Section Raw.

Variable G : Mongoose.

(** The callback of the POST routes: [record.toObject()] is a TypeError
    when [record] is an array (the text of the message is V8's and is not
    modelled). *)
Definition respond_created (m : Model) (record : Created) : Promise unit :=
  match record with
  | One d => res_status_json 201 (JsonDoc (singular m) (toObject d))
  | Many _ => throw (Unclassified "TypeError")
  end.

(** [POST /organizations] and [POST /volunteers] *)
Definition raw_create_owned (m : Model) (user : User) (req : RawRequest)
    (w : World) : Handled :=
  match js_set_owner (JString (id user)) (raw_body req) with
  | None => ThrewTypeError
  | Some fields =>
      ran (serve (create_js G m fields
                    THEN respond_created m
                    CATCH (fun err => handle err)) w)
  end.

(** [POST /projects] *)
Definition raw_projects_create (user : User) (req : RawRequest) (w : World) : Handled :=
  match js_organization_id (raw_body req) with
  | None => ThrewTypeError
  | Some organization_id =>
      match js_set_owner organization_id (raw_body req) with
      | None => ThrewTypeError
      | Some fields =>
          ran (serve (create_js G Project fields
                        THEN respond_created Project
                        CATCH (fun err => handle err)) w)
      end
  end.

(** [PATCH /<resource>/:id] *)
Definition raw_patch (m : Model) (user : User) (req : RawRequest) (w : World) : Handled :=
  match js_delete_owner (raw_body req) with
  | None => ThrewTypeError
  | Some fields =>
      ran (serve (Model_findById m (raw_params_id req)
                    THEN handle404
                    THEN (fun record =>
                            requireOwnership user record ;;;
                            match js_delete_empty_strings fields with
                            | None => throw (Unclassified "TypeError")
                            | Some fields => update_js G m record fields
                            end)
                    THEN (fun _ => res_sendStatus 204)
                    CATCH (fun err => handle err)) w)
  end.

Definition raw_requireToken (route : User -> RawRequest -> World -> Handled)
    (req : RawRequest) (w : World) : Handled :=
  match authenticate w (flat_request req) with
  | Some user => route user req w
  | None => Ran w [Sent {| status := 401; body := NoBody |}]
  end.

(** The routers on the value the client sent: the GET and DELETE routes do
    not read the body. *)
Definition raw_router (e : Endpoint) (req : RawRequest) (w : World) : Handled :=
  match e with
  | POST_organizations => raw_requireToken (raw_create_owned Organization) req w
  | POST_volunteers => raw_requireToken (raw_create_owned Volunteer) req w
  | POST_projects => raw_requireToken raw_projects_create req w
  | PATCH_organizations_id => raw_requireToken (raw_patch Organization) req w
  | PATCH_projects_id => raw_requireToken (raw_patch Project) req w
  | PATCH_volunteers_id => raw_requireToken (raw_patch Volunteer) req w
  | _ => ran (router e (flat_request req) w)
  end.

End Raw.

(** An in-memory store for the examples.  It does what the properties
    below assume of Mongoose: an array of objects is saved element by
    element, each with its own fields, and the members of [$set] are set
    like the fields beside it.  It reads the string members of an object
    and is not a model of Mongoose on other values. *)
Fixpoint create_each (m : Model) (elements : list JsValue) : Promise (list Doc) :=
  match elements with
  | [] => resolve []
  | JObject members :: rest =>
      Model_create m (js_strings members)
        THEN (fun d => create_each m rest THEN (fun ds => resolve (d :: ds)))
  | _ :: _ => throw (Unclassified "not an object")
  end.

Definition memory_create (m : Model) (v : JsValue) : Promise Created :=
  match v with
  | JObject members => Model_create m (js_strings members) THEN (fun d => resolve (One d))
  | JArray elements => create_each m elements THEN (fun ds => resolve (Many ds))
  | _ => throw (Unclassified "not an object")
  end.

Definition memory_update (m : Model) (d : Doc) (v : JsValue) : Promise unit :=
  match v with
  | JObject members =>
      let set := match members !! "$set" with
                 | Some (JObject set) => js_strings set
                 | _ => ∅
                 end in
      Document_update m d (set ∪ js_strings members)
  | _ => throw (Unclassified "not an object")
  end.

Definition memory_store : Mongoose :=
  {| create_js := memory_create; update_js := memory_update |}.

(** A request whose resource is an object of strings, as the client sent
    it. *)
Definition to_raw (req : Request) : RawRequest :=
  {| raw_credential := credential req; raw_params_id := params_id req;
     raw_body := JObject (JString <$> req_body req) |}.

(** On an object of strings the two calls do what [Model_create] and
    [Document_update] do, and an [owner] that is [undefined] counts as no
    [owner]. *)
Definition agrees_on_strings (G : Mongoose) : Prop :=
  (forall m fields w,
     create_js G m (JObject (JString <$> fields)) w
     = (Model_create m fields THEN (fun d => resolve (One d))) w) /\
  (forall m d fields w,
     update_js G m d (JObject (JString <$> fields)) w = Document_update m d fields w) /\
  (forall m members w,
     create_js G m (JObject (<["owner" := JUndefined]> members)) w
     = create_js G m (JObject (delete "owner" members)) w).

(** * Properties *)

(** ** Payload sanitisation *)

Lemma foldl_delete_empty_lookup (keys : list string) (o : gmap string string) (k : string) :
  foldl (fun acc key => if decide (acc !! key = Some "") then delete key acc else acc)
        o keys !! k
  = if decide (k ∈ keys /\ o !! k = Some "") then None else o !! k.
Proof.
  revert o. induction keys as [|a keys IH]; intros o; cbn [foldl].
  - destruct (decide (k ∈ [] /\ o !! k = Some "")) as [[H _]|_]; [|done].
    by apply elem_of_nil in H.
  - rewrite IH. destruct (decide (k = a)) as [->|Hne].
    + destruct (decide (o !! a = Some "")) as [Ha|Ha].
      * rewrite lookup_delete_eq.
        rewrite (decide_True (P := a ∈ a :: keys /\ _)); [|split; [left|done]].
        by case_decide.
      * rewrite !(decide_False (P := _ /\ o !! a = Some "")); tauto.
    + assert (Hk : (if decide (o !! a = Some "") then delete a o else o) !! k = o !! k).
      { destruct (decide (o !! a = Some "")); [by rewrite lookup_delete_ne|done]. }
      rewrite Hk.
      destruct (decide (k ∈ keys /\ o !! k = Some "")) as [[H1 H2]|H1];
        destruct (decide (k ∈ a :: keys /\ o !! k = Some "")) as [[H3 H4]|H3];
        try done.
      * exfalso. apply H3. split; [by right|done].
      * exfalso. apply H1. split; [|done].
        apply elem_of_cons in H3 as [?|?]; [congruence|done].
Qed.

Lemma lookup_delete_empty_strings (o : gmap string string) (k : string) :
  delete_empty_strings o !! k = if decide (o !! k = Some "") then None else o !! k.
Proof.
  unfold delete_empty_strings. rewrite foldl_delete_empty_lookup.
  destruct (decide (o !! k = Some "")) as [Hk|Hk].
  - rewrite decide_True; [done|]. split; [|done].
    unfold Object_keys. apply list_elem_of_fmap. exists (k, "").
    split; [done|]. by apply elem_of_map_to_list.
  - rewrite decide_False; tauto.
Qed.

(** The loop of the PATCH routes keeps exactly the entries whose value is
    not the empty string. *)
Lemma delete_empty_strings_filter (o : gmap string string) :
  delete_empty_strings o = filter (fun kv => kv.2 <> "") o.
Proof.
  apply map_eq; intros k. rewrite lookup_delete_empty_strings.
  destruct (o !! k) as [v|] eqn:Hk.
  - case_decide as Hv.
    + symmetry. apply map_lookup_filter_None. right. intros v' Hv'. simpl. congruence.
    + symmetry. apply map_lookup_filter_Some. split; [done|]. simpl. congruence.
  - case_decide; [done|]. symmetry. apply map_lookup_filter_None. by left.
Qed.

Lemma lookup_sanitize (o : gmap string string) (k : string) :
  sanitize o !! k
  = if decide (k = "owner") then None
    else if decide (o !! k = Some "") then None else o !! k.
Proof.
  unfold sanitize. rewrite lookup_delete_empty_strings.
  destruct (decide (k = "owner")) as [->|Hne].
  - rewrite lookup_delete_eq. by case_decide.
  - by rewrite lookup_delete_ne.
Qed.

Lemma lookup_sanitize_owner (o : gmap string string) : sanitize o !! "owner" = None.
Proof. by rewrite lookup_sanitize. Qed.

(** C9: sanitising an update payload twice gives what sanitising it once
    gives. *)
Theorem sanitize_idempotent (o : gmap string string) :
  sanitize (sanitize o) = sanitize o.
Proof.
  apply map_eq; intros k. rewrite !lookup_sanitize.
  destruct (decide (k = "owner")); [done|].
  destruct (decide (o !! k = Some "")) as [He|He].
  - by case_decide.
  - by rewrite decide_False.
Qed.

(** ** What each route does, case by case *)

Ltac run_chain :=
  unfold serve, then_, catch, floating, handle404, requireOwnership, handle,
    res_status_json, res_sendStatus, store_call, resolve, throw, sent, toObject.

Lemma requireToken_authenticated route req w user :
  authenticate w req = Some user ->
  requireToken route req w = serve (route user req) w.
Proof. intros H. unfold requireToken. by rewrite H. Qed.

Lemma requireToken_rejected route req w :
  authenticate w req = None ->
  requireToken route req w = (w, [sent 401 NoBody]).
Proof. intros H. unfold requireToken. by rewrite H. Qed.

Lemma find_run (m : Model) (conditions : gmap string string) (key : string) (w : World) :
  serve (Model_find m conditions
           THEN (fun records => resolve (toObject <$> records))
           THEN (fun records => res_status_json 200 (JsonDocs key records))
           CATCH (fun err => handle err)) w
  = match faults w m find with
    | Some e => (w, [StoreCall m find; Raised e; Sent (error_response e)])
    | None =>
        (w, [StoreCall m find;
             sent 200 (JsonDocs key
               (docs_of (filter (fun kv => matches conditions kv.2) (collection m w))))])
    end.
Proof.
  unfold Model_find. run_chain.
  destruct (faults w m find); [done|].
  simpl. by rewrite list_fmap_id.
Qed.

Lemma show_run (m : Model) (user : User) (req : Request) (w : World) :
  serve (show m user req) w
  = match faults w m findById with
    | Some e => (w, [StoreCall m findById; Raised e; Sent (error_response e)])
    | None =>
        match collection m w !! params_id req with
        | None => (w, [StoreCall m findById; Raised NotFound; sent 404 NoBody])
        | Some o =>
            (w, [StoreCall m findById;
                 sent 200 (JsonDoc (singular m) {| _id := params_id req; props := o |})])
        end
    end.
Proof.
  unfold show, Model_findById. run_chain.
  destruct (faults w m findById); [done|].
  by destruct (collection m w !! params_id req).
Qed.

Lemma create_run (m : Model) (fields : gmap string string) (w : World) :
  serve (Model_create m fields
           THEN (fun record => res_status_json 201 (JsonDoc (singular m) (toObject record)))
           CATCH (fun err => handle err)) w
  = let o := strict (schema m) fields in
    match invalid_paths (schema m) o with
    | [] =>
        match faults w m create with
        | Some e => (w, [StoreCall m create; Raised e; Sent (error_response e)])
        | None =>
            let i := fresh (dom (collection m w)) in
            (set_collection m (<[i := o]> (collection m w)) w,
             [StoreCall m create; sent 201 (JsonDoc (singular m) {| _id := i; props := o |})])
        end
    | bad =>
        (w, [StoreCall m create; Raised (ValidationError bad);
             sent 422 (JsonValidation bad)])
    end.
Proof.
  unfold Model_create. run_chain. cbv zeta.
  destruct (invalid_paths (schema m) (strict (schema m) fields)); [|done].
  by destruct (faults w m create).
Qed.

Lemma patch_run (m : Model) (user : User) (req : Request) (w : World) :
  serve (patch m user req) w
  = match faults w m findById with
    | Some e => (w, [StoreCall m findById; Raised e; Sent (error_response e)])
    | None =>
        match collection m w !! params_id req with
        | None => (w, [StoreCall m findById; Raised NotFound; sent 404 NoBody])
        | Some o =>
            if decide (o !! "owner" = Some (id user)) then
              match faults w m update with
              | Some e =>
                  (w, [StoreCall m findById; StoreCall m update; Raised e;
                       Sent (error_response e)])
              | None =>
                  (set_collection m
                     (alter (fun o => strict (schema m) (sanitize (req_body req)) ∪ o)
                            (params_id req) (collection m w)) w,
                   [StoreCall m findById; StoreCall m update; sent 204 NoBody])
              end
            else (w, [StoreCall m findById; Raised Forbidden; sent 401 NoBody])
        end
    end.
Proof.
  unfold patch, Model_findById, Document_update, sanitize, owner. run_chain.
  destruct (faults w m findById); [done|].
  destruct (collection m w !! params_id req); [|done].
  simpl. destruct (decide (_ = _)); [|done].
  by destruct (faults w m update).
Qed.

Lemma destroy_run (m : Model) (user : User) (req : Request) (w : World) :
  serve (destroy m user req) w
  = match faults w m findById with
    | Some e => (w, [StoreCall m findById; Raised e; Sent (error_response e)])
    | None =>
        match collection m w !! params_id req with
        | None => (w, [StoreCall m findById; Raised NotFound; sent 404 NoBody])
        | Some o =>
            if decide (o !! "owner" = Some (id user)) then
              match faults w m remove with
              | Some e =>
                  (w, [StoreCall m findById; StoreCall m remove; Raised e;
                       Unhandled e; sent 204 NoBody])
              | None =>
                  (set_collection m (delete (params_id req) (collection m w)) w,
                   [StoreCall m findById; StoreCall m remove; sent 204 NoBody])
              end
            else (w, [StoreCall m findById; Raised Forbidden; sent 401 NoBody])
        end
    end.
Proof.
  unfold destroy, Model_findById, Document_remove, owner. run_chain.
  destruct (faults w m findById); [done|].
  destruct (collection m w !! params_id req); [|done].
  simpl. destruct (decide (_ = _)); [|done].
  by destruct (faults w m remove).
Qed.

(** ** Collections and routing *)

Lemma set_collection_same (m : Model) (w : World) :
  set_collection m (collection m w) w = w.
Proof. by destruct m, w. Qed.

Lemma collection_set_collection (m m' : Model) c (w : World) :
  collection m' (set_collection m c w) = if decide (m = m') then c else collection m' w.
Proof. by destruct m, m'. Qed.

Lemma router_update (m : Model) (req : Request) (w : World) (user : User) :
  authenticate w req = Some user ->
  router (endpoint m Update) req w = serve (patch m user req) w.
Proof. intros H. destruct m; simpl; by apply requireToken_authenticated. Qed.

Lemma router_delete (m : Model) (req : Request) (w : World) (user : User) :
  authenticate w req = Some user ->
  router (endpoint m Delete) req w = serve (destroy m user req) w.
Proof. intros H. destruct m; simpl; by apply requireToken_authenticated. Qed.

Lemma router_show (m : Model) (req : Request) (w : World) (user : User) :
  m <> Project ->
  authenticate w req = Some user ->
  router (endpoint m Show) req w = serve (show m user req) w.
Proof. intros Hm H. destruct m; simpl; try done; by apply requireToken_authenticated. Qed.

Lemma router_create (m : Model) (req : Request) (w : World) (user : User) :
  m <> Project ->
  authenticate w req = Some user ->
  router (endpoint m Create) req w = serve (create_owned m user req) w.
Proof. intros Hm H. destruct m; simpl; try done; by apply requireToken_authenticated. Qed.

Lemma lookup_strict (paths : list string) (o : gmap string string) (k : string) :
  strict paths o !! k = if decide (k ∈ paths) then o !! k else None.
Proof.
  unfold strict. destruct (decide (k ∈ paths)) as [Hk|Hk].
  - destruct (o !! k) as [v|] eqn:Ho.
    + by apply map_lookup_filter_Some.
    + apply map_lookup_filter_None. by left.
  - apply map_lookup_filter_None. right. intros v _. done.
Qed.

Lemma strict_empty (paths : list string) : strict paths ∅ = ∅.
Proof. apply map_eq; intros k. rewrite lookup_strict, lookup_empty. by case_decide. Qed.

(** ** Ownership *)

(** C1: on a stored resource whose owner is [X], PATCH and DELETE by a
    caller other than [X] are answered 401 (Forbidden), the store is left as
    it was and neither [update] nor [remove] is called; by [X] they are
    answered 204, after the lookup and the ownership check, and the update
    or the removal is applied. *)
Theorem ownership_gate (m : Model) (req : Request) (w : World) (user : User)
    (o : gmap string string) (X : ObjectId) :
  authenticate w req = Some user ->
  faults w m findById = None ->
  collection m w !! params_id req = Some o ->
  o !! "owner" = Some X ->
  (id user <> X ->
     router (endpoint m Update) req w
       = (w, [StoreCall m findById; Raised Forbidden; sent 401 NoBody]) /\
     router (endpoint m Delete) req w
       = (w, [StoreCall m findById; Raised Forbidden; sent 401 NoBody]))
  /\
  (id user = X ->
     (faults w m update = None ->
      router (endpoint m Update) req w
        = (set_collection m
             (<[params_id req := strict (schema m) (sanitize (req_body req)) ∪ o]>
                (collection m w)) w,
           [StoreCall m findById; StoreCall m update; sent 204 NoBody])) /\
     (faults w m remove = None ->
      router (endpoint m Delete) req w
        = (set_collection m (delete (params_id req) (collection m w)) w,
           [StoreCall m findById; StoreCall m remove; sent 204 NoBody]))).
Proof.
  intros Hauth Hfind Hdoc Howner.
  rewrite (router_update m req w user Hauth), (router_delete m req w user Hauth).
  rewrite patch_run, destroy_run, Hfind, Hdoc, Howner.
  split.
  - intros Hne. rewrite !decide_False by congruence. done.
  - intros ->. rewrite !decide_True by done. split.
    + intros ->. do 2 f_equal.
      apply map_eq; intros k. rewrite lookup_alter, lookup_insert.
      case_decide; [|done]. subst k. by rewrite Hdoc.
    + by intros ->.
Qed.

(** C8: a PATCH by the owner whose payload is empty once sanitised is
    answered 204 and changes nothing in the store. *)
Theorem empty_update_is_noop (m : Model) (req : Request) (w : World) (user : User)
    (o : gmap string string) :
  authenticate w req = Some user ->
  faults w m findById = None ->
  faults w m update = None ->
  collection m w !! params_id req = Some o ->
  o !! "owner" = Some (id user) ->
  sanitize (req_body req) = ∅ ->
  router (endpoint m Update) req w
    = (w, [StoreCall m findById; StoreCall m update; sent 204 NoBody]).
Proof.
  intros Hauth Hfind Hupd Hdoc Howner Hempty.
  rewrite (router_update m req w user Hauth).
  rewrite patch_run, Hfind, Hdoc, Howner, Hupd, Hempty.
  rewrite decide_True by done. f_equal.
  rewrite alter_id; [apply set_collection_same|].
  intros x _. rewrite strict_empty. apply (left_id_L ∅ (∪)).
Qed.

(** When the resource is an object of strings, a PATCH leaves the owner
    of every stored document as it was, whatever the body holds under
    [owner]. *)
Theorem update_preserves_owner (m : Model) (req : Request) (w : World)
    (m' : Model) (i : ObjectId) :
  (collection m' (router (endpoint m Update) req w).1 !! i) ≫= (.!! "owner")
  = (collection m' w !! i) ≫= (.!! "owner").
Proof.
  destruct (authenticate w req) as [user|] eqn:Hauth.
  2:{ destruct m; simpl; by rewrite requireToken_rejected. }
  rewrite (router_update m req w user Hauth), patch_run.
  destruct (faults w m findById); [done|].
  destruct (collection m w !! params_id req) as [o|] eqn:Hdoc; [|done].
  case_decide; [|done].
  destruct (faults w m update); [done|]. simpl.
  rewrite collection_set_collection.
  destruct (decide (m = m')) as [<-|]; [|done].
  rewrite lookup_alter.
  destruct (decide (params_id req = i)) as [<-|]; [|done].
  rewrite Hdoc. simpl.
  apply lookup_union_r. rewrite lookup_strict, lookup_sanitize_owner. by case_decide.
Qed.

Lemma filter_matches_owner (x : string) (c : gmap string (gmap string string)) :
  filter (fun kv => matches {[ "owner" := x ]} kv.2) c
  = filter (fun kv => kv.2 !! "owner" = Some x) c.
Proof.
  apply map_filter_ext. intros i o _. unfold matches. simpl.
  by rewrite map_Forall_singleton.
Qed.

(** ** Lookup by identifier *)

(** C4, as the routes have it: on organizations and volunteers (show,
    update, delete) and on projects (update, delete) an identifier that the
    lookup does not find is answered 404 with no body, whichever the
    operation; [GET /projects/:id] does no lookup by identifier, it lists
    the projects whose owner is [:id] and answers 200 with that list. *)
Theorem absent_id_is_404 (m : Model) (op : Operation) (req : Request) (w : World)
    (user : User) :
  authenticate w req = Some user ->
  (op = Show \/ op = Update \/ op = Delete) ->
  (faults w m findById = None ->
   collection m w !! params_id req = None ->
   (m, op) <> (Project, Show) ->
   router (endpoint m op) req w
     = (w, [StoreCall m findById; Raised NotFound; sent 404 NoBody]))
  /\
  (faults w Project find = None ->
   router (endpoint Project Show) req w
     = (w, [StoreCall Project find;
            sent 200 (JsonDocs "projects"
              (docs_of (filter (fun kv => kv.2 !! "owner" = Some (params_id req))
                               (projects w))))])).
Proof.
  intros Hauth Hop. split.
  - intros Hfind Hdoc Hne. destruct Hop as [-> | [-> | ->]].
    + rewrite (router_show m req w user) by (done || congruence).
      by rewrite show_run, Hfind, Hdoc.
    + rewrite (router_update m req w user Hauth).
      by rewrite patch_run, Hfind, Hdoc.
    + rewrite (router_delete m req w user Hauth).
      by rewrite destroy_run, Hfind, Hdoc.
  - intros Hfind. simpl. unfold projects_of_owner.
    by rewrite find_run, Hfind, filter_matches_owner.
Qed.

(** ** Creation *)

Lemma owner_in_schema (m : Model) : "owner" ∈ schema m.
Proof.
  destruct m; simpl.
  - unfold organizationSchema. apply elem_of_app. right. by left.
  - apply (bool_decide_unpack _). by vm_compute.
  - apply (bool_decide_unpack _). by vm_compute.
Qed.

Lemma assign_owner_overrides (v : option string) (x : string) (o : gmap string string) :
  assign_owner v (<["owner" := x]> o) = assign_owner v (delete "owner" o).
Proof.
  destruct v; simpl.
  - by rewrite insert_insert_eq, insert_delete_eq.
  - by rewrite delete_insert_eq, delete_delete_eq.
Qed.

Lemma created_doc (m : Model) (fields : gmap string string) (w w' : World)
    (t : list Event) (d : Doc) :
  serve (Model_create m fields
           THEN (fun record => res_status_json 201 (JsonDoc (singular m) (toObject record)))
           CATCH (fun err => handle err)) w = (w', t) ->
  Sent {| status := 201; body := JsonDoc (singular m) d |} ∈ t ->
  d = {| _id := fresh (dom (collection m w)); props := strict (schema m) fields |} /\
  w' = set_collection m (<[_id d := props d]> (collection m w)) w /\
  faults w m create = None.
Proof.
  rewrite create_run. cbv zeta. unfold sent. intros Hrun Hsent.
  destruct (invalid_paths (schema m) (strict (schema m) fields)).
  - destruct (faults w m create) as [e|]; simplify_eq.
    + rewrite !elem_of_cons, elem_of_nil in Hsent.
      destruct Hsent as [?|[?|[?|[]]]]; try done.
      destruct e; simplify_eq.
    + rewrite !elem_of_cons, elem_of_nil in Hsent.
      destruct Hsent as [?|[?|[]]]; by simplify_eq.
  - simplify_eq. rewrite !elem_of_cons, elem_of_nil in Hsent.
    destruct Hsent as [?|[?|[?|[]]]]; done.
Qed.

(** When the resource is an object of strings, a created document takes
    its owner from the request context and not from an [owner] key of the
    body: the outcome of a create request is
    the same whatever the body holds under [owner]; a created organization
    or volunteer is owned by the caller, a created project by the
    [organization_id] of the body; the document answered is the one
    stored. *)
Theorem create_stamps_owner (req : Request) (w : World) (user : User) (x : string) :
  authenticate w req = Some user ->
  (forall m, m <> Project ->
     router (endpoint m Create) (set_body (<["owner" := x]> (req_body req)) req) w
       = router (endpoint m Create) (set_body (delete "owner" (req_body req)) req) w
     /\
     forall w' t d,
       router (endpoint m Create) req w = (w', t) ->
       Sent {| status := 201; body := JsonDoc (singular m) d |} ∈ t ->
       owner d = Some (id user) /\ collection m w' !! _id d = Some (props d))
  /\
  (router (endpoint Project Create) (set_body (<["owner" := x]> (req_body req)) req) w
     = router (endpoint Project Create) (set_body (delete "owner" (req_body req)) req) w
   /\
   forall w' t d,
     router (endpoint Project Create) req w = (w', t) ->
     Sent {| status := 201; body := JsonDoc (singular Project) d |} ∈ t ->
     owner d = req_body req !! "organization_id" /\
     collection Project w' !! _id d = Some (props d)).
Proof.
  intros Hauth. split.
  - intros m Hm. split.
    + rewrite !(router_create m _ w user) by done.
      unfold create_owned, set_body. cbn [req_body].
      by rewrite assign_owner_overrides.
    + intros w' t d. rewrite (router_create m req w user) by done.
      unfold create_owned. cbv zeta. intros Hrun Hsent.
      destruct (created_doc _ _ _ _ _ _ Hrun Hsent) as [Hd [Hw _]]. rewrite Hw. clear Hw. split.
      * subst d. unfold owner. simpl.
        rewrite lookup_strict, decide_True by apply owner_in_schema.
        apply lookup_insert_eq.
      * rewrite collection_set_collection, decide_True by done.
        apply lookup_insert_eq.
  - split.
    + simpl. rewrite !requireToken_authenticated with (user := user) by done.
      unfold projects_create, set_body. cbn [req_body].
      rewrite lookup_insert_ne, lookup_delete_ne by done.
      by rewrite assign_owner_overrides.
    + intros w' t d. simpl. rewrite requireToken_authenticated with (user := user) by done.
      unfold projects_create. cbv zeta. intros Hrun Hsent.
      destruct (created_doc Project _ _ _ _ _ Hrun Hsent) as [Hd [Hw _]]. rewrite Hw. clear Hw. split.
      * subst d. unfold owner. simpl.
        rewrite lookup_strict, decide_True by apply (owner_in_schema Project).
        destruct (req_body req !! "organization_id"); simpl.
        -- apply lookup_insert_eq.
        -- apply lookup_delete_eq.
      * rewrite (collection_set_collection Project Project), decide_True by done.
        apply lookup_insert_eq.
Qed.

Lemma strict_stamped (paths : list string) (v : string) (o : gmap string string) :
  "owner" ∈ paths ->
  map_Forall (fun k _ => k ∈ paths) (delete "owner" o) ->
  strict paths (<["owner" := v]> o) = <["owner" := v]> (delete "owner" o).
Proof.
  intros Hin Hall. apply map_eq; intros k. rewrite lookup_strict.
  destruct (decide (k = "owner")) as [->|Hk].
  - by rewrite decide_True, !lookup_insert_eq.
  - rewrite !lookup_insert_ne, lookup_delete_ne by done.
    case_decide as Hp; [done|].
    destruct (o !! k) as [y|] eqn:Ho; [|done].
    exfalso. apply Hp. apply (Hall k y). by rewrite lookup_delete_ne.
Qed.

Lemma strict_project_fields (ref : string) (o : gmap string string) :
  map_Forall (fun k _ => k ∈ projectSchema) (delete "organization_id" (delete "owner" o)) ->
  strict projectSchema (<["owner" := ref]> o)
  = <["owner" := ref]> (delete "organization_id" (delete "owner" o)).
Proof.
  intros Hall. apply map_eq; intros k. rewrite lookup_strict.
  destruct (decide (k = "owner")) as [->|Hk].
  - rewrite decide_True, !lookup_insert_eq; [done|]. apply (owner_in_schema Project).
  - rewrite !lookup_insert_ne by done.
    destruct (decide (k = "organization_id")) as [->|Hk'].
    + rewrite lookup_delete_eq, decide_False; [done|].
      apply (bool_decide_unpack _). by vm_compute.
    + rewrite !lookup_delete_ne by done.
      case_decide as Hp; [done|].
      destruct (o !! k) as [y|] eqn:Ho; [|done].
      exfalso. apply Hp. apply (Hall k y). by rewrite !lookup_delete_ne.
Qed.

(** C7, as the routes have it: an organization or a volunteer created with
    domain fields [F] (paths of its schema) by a caller is returned by
    [GET /<resource>/:id] at the identifier the creation answered, with the
    fields [F] and the caller as owner; a project has no such route: the one
    created with fields [F] for the organization reference [ref] is in the
    list that [GET /projects/:id] answers at [ref], with the fields [F] and
    [ref] as owner. *)
Theorem create_then_fetch (req : Request) (w : World) (user : User)
    (w1 : World) (t1 : list Event) (d : Doc) (greq : Request) (guser : User) :
  authenticate w req = Some user ->
  authenticate w1 greq = Some guser ->
  (forall m, m <> Project ->
     map_Forall (fun k _ => k ∈ schema m) (delete "owner" (req_body req)) ->
     router (endpoint m Create) req w = (w1, t1) ->
     Sent {| status := 201; body := JsonDoc (singular m) d |} ∈ t1 ->
     params_id greq = _id d ->
     faults w1 m findById = None ->
     router (endpoint m Show) greq w1
       = (w1, [StoreCall m findById;
               sent 200 (JsonDoc (singular m)
                 {| _id := _id d;
                    props := <["owner" := id user]> (delete "owner" (req_body req)) |})]))
  /\
  (forall ref,
     map_Forall (fun k _ => k ∈ projectSchema)
       (delete "organization_id" (delete "owner" (req_body req))) ->
     req_body req !! "organization_id" = Some ref ->
     router (endpoint Project Create) req w = (w1, t1) ->
     Sent {| status := 201; body := JsonDoc (singular Project) d |} ∈ t1 ->
     params_id greq = ref ->
     faults w1 Project find = None ->
     exists ds,
       router (endpoint Project Show) greq w1
         = (w1, [StoreCall Project find; sent 200 (JsonDocs "projects" ds)]) /\
       {| _id := _id d;
          props := <["owner" := ref]>
                     (delete "organization_id" (delete "owner" (req_body req))) |} ∈ ds).
Proof.
  intros Hauth Hgauth. split.
  - intros m Hm Hall. rewrite (router_create m req w user) by done.
    unfold create_owned. cbv zeta. intros Hrun Hsent Hid Hfind.
    destruct (created_doc _ _ _ _ _ _ Hrun Hsent) as [Hd [Hw _]].
    assert (Hprops : props d = <["owner" := id user]> (delete "owner" (req_body req))).
    { rewrite Hd. simpl. apply strict_stamped; [apply owner_in_schema|done]. }
    rewrite (router_show m greq w1 guser) by done.
    rewrite show_run, Hfind, Hid.
    rewrite Hw at 1. rewrite collection_set_collection, decide_True by done.
    by rewrite lookup_insert_eq, Hprops.
  - intros ref Hall Hbody. simpl.
    rewrite requireToken_authenticated with (user := user) by done.
    unfold projects_create. cbv zeta. rewrite Hbody. simpl assign_owner.
    intros Hrun Hsent Hid Hfind.
    destruct (created_doc Project _ _ _ _ _ Hrun Hsent) as [Hd [Hw _]].
    assert (Hprops : props d
      = <["owner" := ref]> (delete "organization_id" (delete "owner" (req_body req)))).
    { rewrite Hd. simpl. by apply strict_project_fields. }
    unfold projects_of_owner. rewrite find_run, Hfind, filter_matches_owner.
    eexists. split; [done|].
    unfold docs_of. apply list_elem_of_fmap. exists (_id d, props d).
    split; [by rewrite Hprops|].
    apply elem_of_map_to_list, map_lookup_filter_Some. split.
    + rewrite Hw. simpl. apply lookup_insert_eq.
    + simpl. rewrite Hprops, Hid. apply lookup_insert_eq.
Qed.

(** ** Listing *)

Lemma filter_matches_all (c : gmap string (gmap string string)) :
  filter (fun kv => matches ∅ kv.2) c = c.
Proof. apply map_filter_id. intros i o _. apply map_Forall_empty. Qed.

Lemma router_list (m : Model) (req : Request) (w : World) (user : User) :
  m <> Organization ->
  authenticate w req = Some user ->
  router (endpoint m List) req w
  = match faults w m find with
    | Some e => (w, [StoreCall m find; Raised e; Sent (error_response e)])
    | None => (w, [StoreCall m find; sent 200 (JsonDocs (plural m) (docs_of (collection m w)))])
    end.
Proof.
  intros Hm Hauth.
  assert (router (endpoint m List) req w = serve (index m user req) w) as ->.
  { destruct m; simpl; try done; by apply requireToken_authenticated. }
  unfold index. by rewrite find_run, filter_matches_all.
Qed.

(** C10: [GET /organizations] answers the organizations whose owner is the
    caller; [GET /volunteers] and [GET /projects] answer every stored
    document, so two authenticated callers get the same answer from them;
    the answer of [GET /organizations] depends on who calls. *)
Theorem list_visibility (w : World) (req1 req2 : Request) (u1 u2 : User) :
  authenticate w req1 = Some u1 ->
  authenticate w req2 = Some u2 ->
  (forall m, m <> Organization ->
     router (endpoint m List) req1 w = router (endpoint m List) req2 w /\
     (faults w m find = None ->
      router (endpoint m List) req1 w
        = (w, [StoreCall m find;
               sent 200 (JsonDocs (plural m) (docs_of (collection m w)))])))
  /\
  (faults w Organization find = None ->
   router (endpoint Organization List) req1 w
     = (w, [StoreCall Organization find;
            sent 200 (JsonDocs "organizations"
              (docs_of (filter (fun kv => kv.2 !! "owner" = Some (id u1))
                               (organizations w))))]))
  /\
  (exists w' r1 r2 v1 v2,
     authenticate w' r1 = Some v1 /\ authenticate w' r2 = Some v2 /\
     router (endpoint Organization List) r1 w'
       <> router (endpoint Organization List) r2 w').
Proof.
  intros H1 H2. split; [|split].
  - intros m Hm. rewrite (router_list m req1 w u1), (router_list m req2 w u2) by done.
    split; [done|]. by intros ->.
  - intros Hfind. simpl. rewrite requireToken_authenticated with (user := u1) by done.
    unfold organizations_index. by rewrite find_run, Hfind, filter_matches_owner.
  - exists sample_world, (request (Some "token1") "" ∅), (request (Some "token2") "" ∅),
      {| id := "U1" |}, {| id := "U2" |}.
    split; [done|]. split; [done|].
    intros Heq. apply (f_equal snd) in Heq. vm_compute in Heq. discriminate Heq.
Qed.

(** ** Authentication and failures *)

(** X2: every route registered with [requireToken] answers 401 to a request
    without a valid credential and does not touch the store. *)
Lemma unauthenticated_rejected (e : Endpoint) (req : Request) (w : World) :
  e <> GET_projects_id ->
  authenticate w req = None ->
  router e req w = (w, [sent 401 NoBody]).
Proof. intros He H. destruct e; try done; simpl; by apply requireToken_rejected. Qed.

Ltac route_cases :=
  unfold organizations_index, index, projects_of_owner, create_owned, projects_create;
  cbv zeta;
  rewrite ?find_run, ?show_run, ?create_run, ?patch_run, ?destroy_run;
  cbv zeta;
  repeat case_match; try case_decide.


(** X4: a failure that reaches the [catch] of its route is answered with the
    response the table gives for it. *)
Lemma handled_failure_response (e : Endpoint) (req : Request) (w : World) (f : Failure) :
  Raised f ∈ (router e req w).2 ->
  Unhandled f ∉ (router e req w).2 ->
  responses (router e req w).2 = [error_response f].
Proof.
  destruct e; simpl; unfold requireToken;
    try (destruct (authenticate w req));
    route_cases; simpl; unfold sent; intros Hraised Hlost;
    repeat (apply elem_of_cons in Hraised as [Hraised|Hraised];
            [try discriminate Hraised|]);
    try (by apply elem_of_nil in Hraised);
    try (injection Hraised as ->; first
           [ reflexivity
           | exfalso; apply Hlost;
             repeat first [apply list_elem_of_here | apply list_elem_of_further] ]).
Qed.

(** ** What a request leaves in the store *)

Lemma tokens_set_collection (m : Model) c (w : World) :
  tokens (set_collection m c w) = tokens w.
Proof. by destruct m. Qed.

Lemma faults_set_collection (m : Model) c (w : World) :
  faults (set_collection m c w) = faults w.
Proof. by destruct m. Qed.

Lemma authenticate_set_collection (m : Model) c (w : World) (req : Request) :
  authenticate (set_collection m c w) req = authenticate w req.
Proof. unfold authenticate. by rewrite tokens_set_collection. Qed.

Lemma reads_leave_world (m : Model) (req : Request) (w : World) :
  (router (endpoint m List) req w).1 = w /\
  (router (endpoint m Show) req w).1 = w.
Proof.
  split; destruct m; simpl; unfold requireToken;
    try (destruct (authenticate w req));
    route_cases; reflexivity.
Qed.

(** X1: the payload a PATCH route hands to [update] holds a key with a value
    exactly when the body holds it with that value, the key is not [owner]
    and the value is not the empty string. *)
Theorem sanitize_keeps (o : gmap string string) (k v : string) :
  sanitize o !! k = Some v <-> o !! k = Some v /\ k <> "owner" /\ v <> "".
Proof.
  rewrite lookup_sanitize. destruct (decide (k = "owner")) as [->|Hk].
  - split; [done|]. by intros (_ & ? & _).
  - destruct (decide (o !! k = Some "")) as [He|He].
    + split; [done|]. intros (Hv & _ & Hne). congruence.
    + split; [|by intros (? & _)]. intros Hv. repeat split; [done..|].
      intros ->. done.
Qed.

(** X6: the GET routes only read: whatever the request and its outcome, the
    world after it is the world before it. *)
Theorem get_routes_read_only (m : Model) (req : Request) (w : World) :
  (router (endpoint m List) req w).1 = w /\
  (router (endpoint m Show) req w).1 = w.
Proof. apply reads_leave_world. Qed.

(** X7: a request on the routes of one resource leaves the collections of
    the two other resources, the tokens and the store's behaviour as they
    were. *)
Theorem other_collections_untouched (m : Model) (op : Operation) (req : Request)
    (w : World) :
  tokens (router (endpoint m op) req w).1 = tokens w /\
  faults (router (endpoint m op) req w).1 = faults w /\
  forall m', m' <> m ->
    collection m' (router (endpoint m op) req w).1 = collection m' w.
Proof.
  destruct m, op; simpl; unfold requireToken;
    try (destruct (authenticate w req));
    route_cases; simpl;
    (split; [reflexivity|split; [reflexivity|]]);
    intros m' Hm'; destruct m'; done.
Qed.

(** X8: a POST route never overwrites: the documents stored before the
    request are stored, unchanged, after it, and the identifier of a created
    document was not in use. *)
Theorem create_keeps_existing_documents (m : Model) (req : Request) (w : World) :
  collection m w ⊆ collection m (router (endpoint m Create) req w).1 /\
  forall d,
    Sent {| status := 201; body := JsonDoc (singular m) d |}
      ∈ (router (endpoint m Create) req w).2 ->
    collection m w !! _id d = None /\
    collection m (router (endpoint m Create) req w).1
      = <[_id d := props d]> (collection m w).
Proof.
  assert (Hfresh : collection m w !! fresh (dom (collection m w)) = None).
  { apply not_elem_of_dom, is_fresh. }
  assert (Hserve : forall fields,
    router (endpoint m Create) req w = (w, [sent 401 NoBody]) \/
    router (endpoint m Create) req w
      = serve (Model_create m fields
                 THEN (fun record =>
                         res_status_json 201 (JsonDoc (singular m) (toObject record)))
                 CATCH (fun err => handle err)) w ->
    collection m w ⊆ collection m (router (endpoint m Create) req w).1 /\
    forall d,
      Sent {| status := 201; body := JsonDoc (singular m) d |}
        ∈ (router (endpoint m Create) req w).2 ->
      collection m w !! _id d = None /\
      collection m (router (endpoint m Create) req w).1
        = <[_id d := props d]> (collection m w)).
  { intros fields [->| ->].
    - split; [done|]. simpl. unfold sent. intros d Hd.
      apply list_elem_of_singleton in Hd. discriminate Hd.
    - destruct (serve _ w) as [w' t] eqn:Hrun. simpl. split.
      + revert Hrun. rewrite create_run. cbv zeta.
        repeat case_match; intros [= <- <-]; try done.
        rewrite collection_set_collection, decide_True by done.
        by apply insert_subseteq.
      + intros d Hd. destruct (created_doc _ _ _ _ _ _ Hrun Hd) as [Hid [-> _]].
        rewrite collection_set_collection, decide_True by done.
        split; [|done]. by rewrite Hid. }
  destruct (authenticate w req) as [user|] eqn:Hauth.
  - destruct m.
    + apply (Hserve (assign_owner (Some (id user)) (req_body req))). right.
      simpl. by rewrite requireToken_authenticated with (user := user).
    + apply (Hserve (assign_owner (req_body req !! "organization_id") (req_body req))).
      right. simpl. by rewrite requireToken_authenticated with (user := user).
    + apply (Hserve (assign_owner (Some (id user)) (req_body req))). right.
      simpl. by rewrite requireToken_authenticated with (user := user).
  - apply (Hserve ∅). left. destruct m; simpl; by apply requireToken_rejected.
Qed.

(** X9: only POST adds documents and only DELETE removes them: after a
    request that is not a POST no collection holds an identifier it did not
    hold, after one that is not a DELETE none has lost an identifier. *)
Theorem documents_added_and_removed (m : Model) (op : Operation) (req : Request)
    (w : World) (m' : Model) :
  (op <> Create ->
   dom (collection m' (router (endpoint m op) req w).1) ⊆ dom (collection m' w)) /\
  (op <> Delete ->
   dom (collection m' w) ⊆ dom (collection m' (router (endpoint m op) req w).1)).
Proof.
  destruct m, op; simpl; unfold requireToken;
    try (destruct (authenticate w req));
    route_cases; cbn [fst]; (split; intros Hop); try congruence; try reflexivity;
    rewrite collection_set_collection; case_decide; try reflexivity;
    rewrite ?dom_alter_L, ?dom_insert_L, ?dom_delete_L; set_solver.
Qed.

(** X10: the show routes do not look at who calls: two authenticated
    callers asking for the same identifier get the same answer, owner or
    not. *)
Theorem show_ignores_caller (m : Model) (req1 req2 : Request) (w : World)
    (u1 u2 : User) :
  authenticate w req1 = Some u1 ->
  authenticate w req2 = Some u2 ->
  params_id req1 = params_id req2 ->
  router (endpoint m Show) req1 w = router (endpoint m Show) req2 w.
Proof.
  intros H1 H2 Hid. destruct m; simpl.
  - rewrite !requireToken_authenticated with (user := u1) by done.
    rewrite (requireToken_authenticated _ req2 w u2) by done.
    by rewrite !show_run, Hid.
  - unfold projects_of_owner. by rewrite Hid.
  - rewrite !requireToken_authenticated with (user := u1) by done.
    rewrite (requireToken_authenticated _ req2 w u2) by done.
    by rewrite !show_run, Hid.
Qed.

(** ** Requests in a row *)

(** X11: once its owner has deleted a document, showing, updating or
    deleting it again is answered 404. *)
Theorem delete_then_absent (m : Model) (op : Operation) (req req2 : Request)
    (w : World) (user user2 : User) (o : gmap string string) :
  authenticate w req = Some user ->
  authenticate w req2 = Some user2 ->
  faults w m findById = None ->
  faults w m remove = None ->
  collection m w !! params_id req = Some o ->
  o !! "owner" = Some (id user) ->
  params_id req2 = params_id req ->
  (op = Show \/ op = Update \/ op = Delete) ->
  (m, op) <> (Project, Show) ->
  router (endpoint m op) req2 (router (endpoint m Delete) req w).1
  = ((router (endpoint m Delete) req w).1,
     [StoreCall m findById; Raised NotFound; sent 404 NoBody]).
Proof.
  intros Hauth Hauth2 Hfind Hrem Hdoc Ho Hid Hop Hne.
  rewrite (router_delete m req w user Hauth), destroy_run, Hfind, Hdoc, Ho, Hrem.
  rewrite decide_True by done. cbn [fst].
  set (w1 := set_collection m _ w).
  assert (Hauth1 : authenticate w1 req2 = Some user2).
  { unfold w1. by rewrite authenticate_set_collection. }
  assert (Hfind1 : faults w1 m findById = None).
  { unfold w1. by rewrite faults_set_collection. }
  assert (Hdoc1 : collection m w1 !! params_id req2 = None).
  { unfold w1. rewrite collection_set_collection, decide_True, Hid by done.
    apply lookup_delete_eq. }
  destruct Hop as [-> | [-> | ->]].
  - rewrite (router_show m req2 w1 user2) by (done || congruence).
    by rewrite show_run, Hfind1, Hdoc1.
  - rewrite (router_update m req2 w1 user2 Hauth1).
    by rewrite patch_run, Hfind1, Hdoc1.
  - rewrite (router_delete m req2 w1 user2 Hauth1).
    by rewrite destroy_run, Hfind1, Hdoc1.
Qed.

Lemma elem_of_docs_of (d : Doc) (c : gmap string (gmap string string)) :
  d ∈ docs_of c <-> c !! _id d = Some (props d).
Proof.
  unfold docs_of. rewrite list_elem_of_fmap. split.
  - intros [[i o] [-> Hin]]. by apply elem_of_map_to_list in Hin.
  - intros Hd. exists (_id d, props d). split; [by destruct d|].
    by apply elem_of_map_to_list.
Qed.

(** X14: an organization that a caller has created is in the list
    [GET /organizations] answers to that caller and in the list of no other
    caller. *)
Theorem created_organization_listed_to_creator (req lreq : Request) (w w1 : World)
    (t1 : list Event) (user luser : User) (d : Doc) :
  authenticate w req = Some user ->
  router (endpoint Organization Create) req w = (w1, t1) ->
  Sent {| status := 201; body := JsonDoc "organization" d |} ∈ t1 ->
  authenticate w1 lreq = Some luser ->
  faults w1 Organization find = None ->
  exists ds,
    router (endpoint Organization List) lreq w1
    = (w1, [StoreCall Organization find; sent 200 (JsonDocs "organizations" ds)]) /\
    (d ∈ ds <-> id luser = id user).
Proof.
  intros Hauth. rewrite (router_create Organization req w user) by done.
  unfold create_owned. cbv zeta. intros Hrun Hsent Hlauth Hfind.
  destruct (created_doc Organization _ _ _ _ _ Hrun Hsent) as [Hd [Hw _]].
  assert (Hown : props d !! "owner" = Some (id user)).
  { rewrite Hd. simpl.
    rewrite lookup_strict, decide_True by apply (owner_in_schema Organization).
    apply lookup_insert_eq. }
  assert (Hstored : organizations w1 !! _id d = Some (props d)).
  { rewrite Hw. simpl. apply lookup_insert_eq. }
  simpl. rewrite requireToken_authenticated with (user := luser) by done.
  unfold organizations_index. rewrite find_run, Hfind, filter_matches_owner.
  eexists. split; [done|]. simpl.
  rewrite elem_of_docs_of, map_lookup_filter_Some. simpl. rewrite Hown. split.
  - intros [_ [= Heq]]. by destruct luser, user; simpl in *; subst.
  - intros Heq. split; [done|]. by rewrite Heq.
Qed.

(** ** The value the client sent *)

Lemma js_is_empty_string_spec (v : JsValue) :
  js_is_empty_string v = true <-> v = JString "".
Proof. destruct v as [| | | |[|c s]| |]; simpl; split; (done || congruence). Qed.

Lemma delete_if_empty_lookup (members : gmap string JsValue) (a k : string) :
  match members !! a with
  | Some (JString "") => delete a members
  | _ => members
  end !! k
  = if bool_decide (k = a) && empty_at members k then None else members !! k.
Proof.
  unfold empty_at. destruct (decide (k = a)) as [->|Hne].
  - rewrite bool_decide_eq_true_2 by done.
    destruct (members !! a) as [[| | | |[|c s]| |]|] eqn:Ha; simpl; try done.
    apply lookup_delete_eq.
  - rewrite bool_decide_eq_false_2 by done. simpl.
    destruct (members !! a) as [[| | | |[|c s]| |]|]; try done.
    by rewrite lookup_delete_ne.
Qed.

Lemma foldl_js_delete_empty_lookup (keys : list string) (members : gmap string JsValue)
    (k : string) :
  foldl (fun acc key =>
           match acc !! key with
           | Some (JString "") => delete key acc
           | _ => acc
           end) members keys !! k
  = if bool_decide (k ∈ keys) && empty_at members k then None else members !! k.
Proof.
  revert members. induction keys as [|a keys IH]; intros members; cbn [foldl].
  - rewrite bool_decide_eq_false_2; [done|]. apply not_elem_of_nil.
  - rewrite IH. unfold empty_at at 1. rewrite !delete_if_empty_lookup.
    destruct (decide (k = a)) as [->|Hne].
    + rewrite (bool_decide_eq_true_2 (a = a)) by done.
      rewrite (bool_decide_eq_true_2 (a ∈ a :: keys)) by (by left).
      simpl. destruct (empty_at members a) eqn:He; simpl.
      * by rewrite andb_false_r.
      * fold (empty_at members a). rewrite He. by rewrite andb_false_r.
    + rewrite (bool_decide_eq_false_2 (k = a)) by done. simpl.
      fold (empty_at members k).
      destruct (decide (k ∈ keys)) as [Hin|Hin].
      * rewrite !bool_decide_eq_true_2; [done|by right|done].
      * rewrite !bool_decide_eq_false_2; [done| |done].
        intros [?|?]%elem_of_cons; done.
Qed.

Lemma lookup_js_delete_empty_members (members : gmap string JsValue) (k : string) :
  js_delete_empty_members members !! k
  = if empty_at members k then None else members !! k.
Proof.
  unfold js_delete_empty_members. rewrite foldl_js_delete_empty_lookup.
  destruct (empty_at members k) eqn:He; [|by rewrite andb_false_r].
  rewrite bool_decide_eq_true_2; [done|].
  unfold empty_at in He. destruct (members !! k) as [v|] eqn:Hk; [|done].
  apply list_elem_of_fmap. exists (k, v).
  split; [done|]. by apply elem_of_map_to_list.
Qed.

Lemma lookup_js_sanitize (members : gmap string JsValue) (k : string) :
  js_sanitize members !! k
  = if decide (k = "owner") then None
    else if empty_at members k then None else members !! k.
Proof.
  unfold js_sanitize. rewrite lookup_js_delete_empty_members. unfold empty_at.
  destruct (decide (k = "owner")) as [->|Hne].
  - by rewrite lookup_delete_eq.
  - by rewrite lookup_delete_ne.
Qed.

Lemma raw_router_create (G : Mongoose) (m : Model) (req : RawRequest) (w : World)
    (user : User) :
  authenticate w (flat_request req) = Some user ->
  raw_router G (endpoint m Create) req w
  = match m with
    | Project => raw_projects_create G user req w
    | _ => raw_create_owned G m user req w
    end.
Proof. intros H. destruct m; simpl; unfold raw_requireToken; by rewrite H. Qed.

Lemma raw_router_update (G : Mongoose) (m : Model) (req : RawRequest) (w : World)
    (user : User) :
  authenticate w (flat_request req) = Some user ->
  raw_router G (endpoint m Update) req w = raw_patch G m user req w.
Proof. intros H. destruct m; simpl; unfold raw_requireToken; by rewrite H. Qed.

(** C3: when the resource of a POST is an array, the owner that the route
    sets lands on the array and not on its elements: [Model.create] receives
    the elements as the client sent them, the documents it saves stay saved
    with the owners their elements carry, and the request is answered 500
    because the array it settles with has no [toObject]. *)
Theorem array_reaches_create (G : Mongoose) (m : Model) (req : RawRequest)
    (w w' : World) (user : User) (elements : list JsValue) (ds : list Doc)
    (t : list Event) :
  authenticate w (flat_request req) = Some user ->
  raw_body req = JArray elements ->
  create_js G m (JArray elements) w = (Fulfilled (Many ds), w', t) ->
  (forall v, js_set_owner v (raw_body req) = Some (JArray elements)) /\
  raw_router G (endpoint m Create) req w
  = Ran w' (t ++ [Raised (Unclassified "TypeError");
                   sent 500 (JsonMessage "TypeError")]).
Proof.
  intros Hauth Hbody Hcreate. split; [by rewrite Hbody|].
  rewrite (raw_router_create G m req w user Hauth).
  assert (Hrun : ran (serve (create_js G m (JArray elements)
                               THEN respond_created m
                               CATCH (fun err => handle err)) w)
                 = Ran w' (t ++ [Raised (Unclassified "TypeError");
                                  sent 500 (JsonMessage "TypeError")])).
  { unfold ran, serve, then_, catch. rewrite Hcreate. simpl.
    by rewrite <- app_assoc. }
  destruct m; unfold raw_create_owned, raw_projects_create; by rewrite Hbody.
Qed.

(** A POST or a PATCH whose body has no resource, or [null] for it, throws
    before the route calls the store or writes a response. *)
Lemma missing_resource_throws (G : Mongoose) (m : Model) (req : RawRequest)
    (w : World) (user : User) :
  authenticate w (flat_request req) = Some user ->
  raw_body req = JUndefined \/ raw_body req = JNull ->
  raw_router G (endpoint m Create) req w = ThrewTypeError /\
  raw_router G (endpoint m Update) req w = ThrewTypeError.
Proof.
  intros Hauth Hbody.
  rewrite (raw_router_create G m req w user Hauth).
  rewrite (raw_router_update G m req w user Hauth).
  unfold raw_create_owned, raw_projects_create, raw_patch.
  destruct Hbody as [-> | ->]; by destruct m.
Qed.

(** C5: on an object the PATCH routes delete the [owner] member and the
    members that are the empty string, and hand every other member, [$set]
    and the other update operators included, to [update]: for the owner of
    the document, what [update] makes of that payload is what is stored,
    and the request is answered 204. *)
Theorem operators_reach_update (G : Mongoose) (m : Model) (req : RawRequest)
    (w w' : World) (user : User) (o : gmap string string)
    (members : gmap string JsValue) (t : list Event) :
  authenticate w (flat_request req) = Some user ->
  faults w m findById = None ->
  collection m w !! raw_params_id req = Some o ->
  o !! "owner" = Some (id user) ->
  raw_body req = JObject members ->
  update_js G m {| _id := raw_params_id req; props := o |}
    (JObject (js_sanitize members)) w = (Fulfilled tt, w', t) ->
  raw_router G (endpoint m Update) req w
    = Ran w' ([StoreCall m findById] ++ t ++ [sent 204 NoBody]) /\
  forall k v,
    members !! k = Some v -> k <> "owner" -> v <> JString "" ->
    js_sanitize members !! k = Some v.
Proof.
  intros Hauth Hfind Hdoc Ho Hbody Hupdate. split.
  - rewrite (raw_router_update G m req w user Hauth).
    unfold raw_patch. rewrite Hbody. cbn [js_delete_owner js_delete_empty_strings].
    fold (js_sanitize members).
    unfold ran, serve, then_, catch, Model_findById, store_call, handle404,
      requireOwnership, owner, resolve, res_sendStatus, sent.
    rewrite Hfind, Hdoc. simpl. rewrite Ho, decide_True by done.
    rewrite Hupdate. simpl. done.
  - intros k v Hk Hne Hv. rewrite lookup_js_sanitize, decide_False by done.
    unfold empty_at. rewrite Hk.
    destruct (js_is_empty_string v) eqn:He; [|done].
    by apply js_is_empty_string_spec in He.
Qed.

(** ** Objects of strings *)

Lemma js_strings_fmap (fields : gmap string string) :
  js_strings (JString <$> fields) = fields.
Proof.
  apply map_eq; intros k. unfold js_strings.
  rewrite lookup_omap, lookup_fmap. by destruct (fields !! k).
Qed.

Lemma js_sanitize_fmap (fields : gmap string string) :
  js_sanitize (JString <$> fields) = JString <$> sanitize fields.
Proof.
  apply map_eq; intros k.
  rewrite lookup_js_sanitize, !lookup_fmap, lookup_sanitize. unfold empty_at.
  destruct (decide (k = "owner")); [done|]. rewrite lookup_fmap.
  by destruct (fields !! k) as [[|c v]|] eqn:Hk; simpl.
Qed.

(** On a resource that is an object of strings, the routes on the client's
    value are the routes of the first part, for any store that treats such
    objects as the first part does. *)
Lemma raw_router_on_strings (G : Mongoose) (e : Endpoint) (req : Request) (w : World) :
  agrees_on_strings G ->
  raw_router G e (to_raw req) w = ran (router e req w).
Proof.
  intros (Hcreate & Hupdate & Hundefined).
  assert (Hauth : authenticate w (flat_request (to_raw req)) = authenticate w req) by done.
  assert (Hpost : forall m fields,
    ran (serve (create_js G m (JObject (JString <$> fields))
                  THEN respond_created m CATCH (fun err => handle err)) w)
    = ran (serve (Model_create m fields
                    THEN (fun record =>
                            res_status_json 201 (JsonDoc (singular m) (toObject record)))
                    CATCH (fun err => handle err)) w)).
  { intros m fields. unfold serve, then_, catch. rewrite Hcreate.
    unfold then_, resolve. destruct (Model_create m fields w) as [[[d|err] w1] t1]; simpl.
    - by rewrite app_nil_r.
    - done. }
  assert (Hpatch : forall m user,
    raw_patch G m user (to_raw req) w = ran (serve (patch m user req) w)).
  { intros m user. unfold raw_patch, patch, to_raw. cbn [raw_body raw_params_id].
    cbn [js_delete_owner]. rewrite <- fmap_delete.
    cbn [js_delete_empty_strings].
    assert (Hs : js_delete_empty_members (JString <$> delete "owner" (req_body req))
                 = JString <$> delete_empty_strings (delete "owner" (req_body req))).
    { rewrite fmap_delete. apply js_sanitize_fmap. }
    rewrite Hs. f_equal. unfold serve, then_, catch.
    destruct (Model_findById m (params_id req) w) as [[[r|err] w1] t1]; [|done].
    destruct (handle404 r w1) as [[[d|err] w2] t2]; [|done].
    destruct (requireOwnership user d w2) as [[[[]|err] w3] t3]; [|done].
    by rewrite Hupdate. }
  destruct e; try done; simpl; unfold raw_requireToken, requireToken; rewrite Hauth;
    destruct (authenticate w req) as [user|]; try done; try apply Hpatch.
  - unfold raw_create_owned, create_owned, to_raw. cbn [raw_body js_set_owner assign_owner].
    rewrite <- fmap_insert. by apply Hpost.
  - unfold raw_projects_create, projects_create, to_raw.
    cbn [raw_body js_organization_id]. rewrite lookup_fmap.
    destruct (req_body req !! "organization_id") as [v|] eqn:Horg;
      cbn [fmap option_fmap option_map from_option Datatypes.id js_set_owner assign_owner].
    + rewrite <- fmap_insert. by apply Hpost.
    + unfold ran, serve, then_, catch. rewrite Hundefined, <- fmap_delete.
      apply (Hpost Project (delete "owner" (req_body req))).
  - unfold raw_create_owned, create_owned, to_raw. cbn [raw_body js_set_owner assign_owner].
    rewrite <- fmap_insert. by apply Hpost.
Qed.

Lemma memory_store_agrees : agrees_on_strings memory_store.
Proof.
  split; [|split].
  - intros m fields w. simpl. unfold memory_create. by rewrite js_strings_fmap.
  - intros m d fields w. simpl. unfold memory_update.
    rewrite js_strings_fmap, lookup_fmap.
    destruct (fields !! "$set"); simpl; by rewrite (left_id_L ∅ (∪)).
  - intros m members w. simpl. unfold memory_create. f_equal. f_equal.
    apply map_eq; intros k. unfold js_strings. rewrite !lookup_omap.
    destruct (decide (k = "owner")) as [->|Hk].
    + by rewrite lookup_insert_eq, lookup_delete_eq.
    + by rewrite lookup_insert_ne, lookup_delete_ne.
Qed.

End Routes.

(** * The properties on the sample data *)

Ltac by_computation := apply (bool_decide_unpack _); vm_compute; exact I.

(** C2: [GET /projects/:id] is registered without [requireToken]: a request
    that carries no credential reaches the store and is answered 200 with
    the projects of the organization [a1]. *)
Theorem projects_of_owner_unauthenticated :
  authenticate sample_world (request None "a1" ∅) = None /\
  router sample_paths (endpoint Project Show) (request None "a1" ∅) sample_world
  = (sample_world,
     [StoreCall Project find;
      sent 200 (JsonDocs "projects"
        [{| _id := "b1";
            props := {[ "name" := "Site"; "type" := "web"; "description" := "new site";
                        "desiredskills" := "html"; "owner" := "a1" ]} |}])]).
Proof. split; [reflexivity|]. vm_compute. reflexivity. Qed.

(** C6: [DELETE /volunteers/:id] by the owner when the removal fails in the
    store: the failure reaches no handler and the request is answered 204;
    the volunteer is still stored. *)
Theorem failed_removal_answers_204 :
  router sample_paths (endpoint Volunteer Delete) (request (Some "token1") "c1" ∅)
    failing_world
  = (failing_world,
     [StoreCall Volunteer findById; StoreCall Volunteer remove;
      Raised (Unclassified "connection lost"); Unhandled (Unclassified "connection lost");
      sent 204 NoBody]).
Proof. vm_compute. reflexivity. Qed.

(** C4 fails on projects: [GET /projects/:id] at an identifier that no
    project has is answered 200 with an empty list, not 404. *)
Lemma show_project_absent_is_200 :
  authenticate sample_world (request (Some "token1") "zzz" ∅) = Some U1 /\
  faults sample_world Project findById = None /\
  collection Project sample_world !! "zzz" = None /\
  responses (router sample_paths (endpoint Project Show)
               (request (Some "token1") "zzz" ∅) sample_world).2
    = [{| status := 200; body := JsonDocs "projects" [] |}] /\
  responses (router sample_paths (endpoint Project Show)
               (request (Some "token1") "zzz" ∅) sample_world).2
    <> [{| status := 404; body := NoBody |}].
Proof.
  split; [reflexivity|]. split; [reflexivity|]. split; [reflexivity|].
  split; [vm_compute; reflexivity|]. vm_compute. discriminate.
Qed.

(** C7 fails on projects: the identifier that [POST /projects] answers,
    given to [GET /projects/:id], yields an empty list and not the project
    that was created. *)
Lemma created_project_not_fetched_by_id :
  exists d w1,
    router sample_paths (endpoint Project Create)
      (request (Some "token1") "" new_project) sample_world
      = (w1, [StoreCall Project create; sent 201 (JsonDoc "project" d)]) /\
    delete "owner" (props d) = delete "organization_id" new_project /\
    owner d = Some "a1" /\
    router sample_paths (endpoint Project Show)
      (request (Some "token1") (_id d) ∅) w1
      = (w1, [StoreCall Project find; sent 200 (JsonDocs "projects" [])]).
Proof.
  eexists {| _id := "0"; props := _ |}, _.
  split; [vm_compute; reflexivity|].
  split; [vm_compute; reflexivity|].
  split; [vm_compute; reflexivity|].
  vm_compute. reflexivity.
Qed.

(** The store itself would let an update reassign the owner: the PATCH
    routes keep it by deleting the key from the payload. *)
Example store_update_can_reassign_owner :
  (collection Volunteer
     (serve (Document_update sample_paths Volunteer
               {| _id := "c1"; props := ∅ |} {[ "owner" := "U2" ]}) sample_world).1
     !! "c1") ≫= (.!! "owner")
  = Some "U2".
Proof. vm_compute. reflexivity. Qed.

(** U2 may not PATCH or DELETE the volunteer of U1. *)
Lemma ownership_gate_witness :
  (authenticate sample_world (request (Some "token2") "c1" {[ "skills" := "cooking" ]})
     = Some U2 /\
   faults sample_world Volunteer findById = None /\
   collection Volunteer sample_world !! "c1"
     = Some {[ "description" := "help"; "skills" := "driving"; "owner" := "U1" ]} /\
   ({[ "description" := "help"; "skills" := "driving"; "owner" := "U1" ]}
      : gmap string string) !! "owner" = Some "U1") /\
  router sample_paths (endpoint Volunteer Update)
    (request (Some "token2") "c1" {[ "skills" := "cooking" ]}) sample_world
  = (sample_world, [StoreCall Volunteer findById; Raised Forbidden; sent 401 NoBody]).
Proof.
  split; [repeat split; reflexivity|].
  destruct (ownership_gate sample_paths Volunteer
              (request (Some "token2") "c1" {[ "skills" := "cooking" ]})
              sample_world U2
              {[ "description" := "help"; "skills" := "driving"; "owner" := "U1" ]}
              "U1" eq_refl eq_refl eq_refl eq_refl) as [Hother _].
  apply Hother. discriminate.
Defined.

(** [PATCH /organizations/a1] with body [{name: ""}] by the owner. *)
Lemma empty_update_is_noop_witness :
  (authenticate sample_world (request (Some "token1") "a1" {[ "name" := "" ]}) = Some U1 /\
   sanitize {[ "name" := "" ]} = ∅) /\
  router sample_paths (endpoint Organization Update)
    (request (Some "token1") "a1" {[ "name" := "" ]}) sample_world
  = (sample_world,
     [StoreCall Organization findById; StoreCall Organization update; sent 204 NoBody]).
Proof.
  split; [split; reflexivity|].
  apply (empty_update_is_noop sample_paths Organization
           (request (Some "token1") "a1" {[ "name" := "" ]}) sample_world U1
           {[ "name" := "Shelter"; "owner" := "U1" ]});
    reflexivity.
Defined.

(** [DELETE /organizations/zzz], an identifier that is not stored. *)
Lemma absent_id_is_404_witness :
  (authenticate sample_world (request (Some "token1") "zzz" ∅) = Some U1 /\
   collection Organization sample_world !! "zzz" = None) /\
  router sample_paths (endpoint Organization Delete)
    (request (Some "token1") "zzz" ∅) sample_world
  = (sample_world, [StoreCall Organization findById; Raised NotFound; sent 404 NoBody]).
Proof.
  split; [split; reflexivity|].
  destruct (absent_id_is_404 sample_paths Organization Delete
              (request (Some "token1") "zzz" ∅) sample_world U1 eq_refl
              (or_intror (or_intror eq_refl))) as [Habsent _].
  apply Habsent; [reflexivity|reflexivity|discriminate].
Defined.

(** [POST /volunteers] with body [{description: "help", skills: "driving"}]
    as U1. *)
Lemma create_stamps_owner_witness :
  authenticate sample_world
    (request (Some "token1") "" {[ "description" := "help"; "skills" := "driving" ]})
    = Some U1 /\
  exists w' d,
    router sample_paths (endpoint Volunteer Create)
      (request (Some "token1") "" {[ "description" := "help"; "skills" := "driving" ]})
      sample_world
      = (w', [StoreCall Volunteer create; sent 201 (JsonDoc "volunteer" d)]) /\
    owner d = Some "U1" /\
    collection Volunteer w' !! _id d = Some (props d).
Proof.
  split; [reflexivity|].
  destruct (create_stamps_owner sample_paths
              (request (Some "token1") "" {[ "description" := "help"; "skills" := "driving" ]})
              sample_world U1 "U2" eq_refl) as [Howned _].
  destruct (Howned Volunteer ltac:(discriminate)) as [_ Hcreated].
  eexists _, {| _id := "0"; props := _ |}.
  split; [vm_compute; reflexivity|].
  eapply Hcreated; [vm_compute; reflexivity|].
  apply list_elem_of_further, list_elem_of_here.
Defined.

(** [POST /organizations] with body [{name: "Food bank"}] as U1, then
    [GET /organizations/:id] as U2; [POST /projects] for the organization
    [a1], then [GET /projects/a1]. *)
Lemma create_then_fetch_witness :
  (authenticate sample_world (request (Some "token1") "" {[ "name" := "Food bank" ]})
     = Some U1 /\
   authenticate sample_world (request (Some "token1") "" new_project) = Some U1) /\
  (exists w1 d,
     router sample_paths (endpoint Organization Create)
       (request (Some "token1") "" {[ "name" := "Food bank" ]}) sample_world
       = (w1, [StoreCall Organization create; sent 201 (JsonDoc "organization" d)]) /\
     authenticate w1 (request (Some "token2") (_id d) ∅) = Some U2 /\
     router sample_paths (endpoint Organization Show)
       (request (Some "token2") (_id d) ∅) w1
       = (w1, [StoreCall Organization findById;
               sent 200 (JsonDoc "organization"
                 {| _id := _id d;
                    props := <["owner" := "U1"]> (delete "owner" {[ "name" := "Food bank" ]})
                 |})])) /\
  (exists w1 d ds,
     router sample_paths (endpoint Project Create)
       (request (Some "token1") "" new_project) sample_world
       = (w1, [StoreCall Project create; sent 201 (JsonDoc "project" d)]) /\
     router sample_paths (endpoint Project Show) (request (Some "token2") "a1" ∅) w1
       = (w1, [StoreCall Project find; sent 200 (JsonDocs "projects" ds)]) /\
     {| _id := _id d;
        props := <["owner" := "a1"]>
                   (delete "organization_id" (delete "owner" new_project)) |} ∈ ds).
Proof.
  split; [split; reflexivity|]. split.
  - set (r := router sample_paths (endpoint Organization Create)
                (request (Some "token1") "" {[ "name" := "Food bank" ]}) sample_world).
    set (d := {| _id := "0";
                 props := strict (schema sample_paths Organization)
                            (<["owner" := "U1"]> {[ "name" := "Food bank" ]}) |}).
    assert (Hg : authenticate r.1 (request (Some "token2") "0" ∅) = Some U2)
      by (vm_compute; reflexivity).
    destruct (create_then_fetch sample_paths
                (request (Some "token1") "" {[ "name" := "Food bank" ]}) sample_world U1
                r.1 r.2 d (request (Some "token2") "0" ∅) U2 eq_refl Hg) as [Hshow _].
    exists r.1, d.
    split; [vm_compute; reflexivity|]. split; [exact Hg|].
    apply (Hshow Organization).
    + discriminate.
    + by_computation.
    + vm_compute. reflexivity.
    + apply list_elem_of_further, list_elem_of_here.
    + reflexivity.
    + reflexivity.
  - set (r := router sample_paths (endpoint Project Create)
                (request (Some "token1") "" new_project) sample_world).
    assert (Hg : authenticate r.1 (request (Some "token2") "a1" ∅) = Some U2)
      by (vm_compute; reflexivity).
    destruct (create_then_fetch sample_paths
                (request (Some "token1") "" new_project) sample_world U1
                r.1 r.2
                {| _id := "0"; props := strict projectSchema (<["owner" := "a1"]> new_project) |}
                (request (Some "token2") "a1" ∅) U2 eq_refl Hg) as [_ Hproject].
    destruct (Hproject "a1") as [ds [Hrun Hin]].
    + by_computation.
    + reflexivity.
    + vm_compute. reflexivity.
    + apply list_elem_of_further, list_elem_of_here.
    + reflexivity.
    + reflexivity.
    + exists r.1, {| _id := "0";
                     props := strict projectSchema (<["owner" := "a1"]> new_project) |}, ds.
      split; [vm_compute; reflexivity|]. split; [exact Hrun|exact Hin].
Defined.

(** U1 and U2 list the volunteers. *)
Lemma list_visibility_witness :
  (authenticate sample_world (request (Some "token1") "" ∅) = Some U1 /\
   authenticate sample_world (request (Some "token2") "" ∅) = Some U2) /\
  router sample_paths (endpoint Volunteer List) (request (Some "token1") "" ∅) sample_world
  = router sample_paths (endpoint Volunteer List) (request (Some "token2") "" ∅) sample_world.
Proof.
  split; [split; reflexivity|].
  destruct (list_visibility sample_paths sample_world
              (request (Some "token1") "" ∅) (request (Some "token2") "" ∅)
              U1 U2 eq_refl eq_refl) as [Hall _].
  exact (proj1 (Hall Volunteer ltac:(discriminate))).
Defined.

(** [DELETE /organizations/a1] without a credential. *)
Lemma unauthenticated_rejected_witness :
  (DELETE_organizations_id <> GET_projects_id /\
   authenticate sample_world (request None "a1" ∅) = None) /\
  router sample_paths DELETE_organizations_id (request None "a1" ∅) sample_world
  = (sample_world, [sent 401 NoBody]).
Proof.
  split; [split; [discriminate|reflexivity]|].
  apply (unauthenticated_rejected sample_paths); [discriminate|reflexivity].
Defined.

(** [GET /volunteers/zzz], an identifier that is not stored. *)
Lemma handled_failure_response_witness :
  Raised NotFound
    ∈ (router sample_paths GET_volunteers_id (request (Some "token1") "zzz" ∅)
         sample_world).2 /\
  responses (router sample_paths GET_volunteers_id (request (Some "token1") "zzz" ∅)
               sample_world).2
  = [{| status := 404; body := NoBody |}].
Proof.
  split.
  - vm_compute. apply list_elem_of_further, list_elem_of_here.
  - apply (handled_failure_response sample_paths GET_volunteers_id
             (request (Some "token1") "zzz" ∅) sample_world NotFound).
    + vm_compute. apply list_elem_of_further, list_elem_of_here.
    + intros H. vm_compute in H.
      repeat (apply elem_of_cons in H as [H|H]; [discriminate H|]).
      by apply elem_of_nil in H.
Defined.

(** U1, who owns the volunteer c1, and U2 both ask for it. *)
Lemma show_ignores_caller_witness :
  (authenticate sample_world (request (Some "token1") "c1" ∅) = Some U1 /\
   authenticate sample_world (request (Some "token2") "c1" ∅) = Some U2) /\
  router sample_paths (endpoint Volunteer Show) (request (Some "token1") "c1" ∅)
    sample_world
  = router sample_paths (endpoint Volunteer Show) (request (Some "token2") "c1" ∅)
      sample_world.
Proof.
  split; [split; reflexivity|].
  apply (show_ignores_caller sample_paths Volunteer
           (request (Some "token1") "c1" ∅) (request (Some "token2") "c1" ∅)
           sample_world U1 U2); reflexivity.
Defined.

(** U1 deletes the volunteer c1, then U2 asks for it. *)
Lemma delete_then_absent_witness :
  (authenticate sample_world (request (Some "token1") "c1" ∅) = Some U1 /\
   authenticate sample_world (request (Some "token2") "c1" ∅) = Some U2 /\
   collection Volunteer sample_world !! "c1"
     = Some {[ "description" := "help"; "skills" := "driving"; "owner" := "U1" ]}) /\
  router sample_paths (endpoint Volunteer Show) (request (Some "token2") "c1" ∅)
    (router sample_paths (endpoint Volunteer Delete) (request (Some "token1") "c1" ∅)
       sample_world).1
  = ((router sample_paths (endpoint Volunteer Delete) (request (Some "token1") "c1" ∅)
        sample_world).1,
     [StoreCall Volunteer findById; Raised NotFound; sent 404 NoBody]).
Proof.
  split; [repeat split; reflexivity|].
  apply (delete_then_absent sample_paths Volunteer Show
           (request (Some "token1") "c1" ∅) (request (Some "token2") "c1" ∅)
           sample_world U1 U2
           {[ "description" := "help"; "skills" := "driving"; "owner" := "U1" ]});
    try reflexivity; [by left|discriminate].
Defined.

(** U1 creates an organization; U2 lists the organizations. *)
Lemma created_organization_listed_to_creator_witness :
  (authenticate sample_world (request (Some "token1") "" {[ "name" := "Food bank" ]})
     = Some U1) /\
  exists w1 d ds,
    router sample_paths (endpoint Organization Create)
      (request (Some "token1") "" {[ "name" := "Food bank" ]}) sample_world
      = (w1, [StoreCall Organization create; sent 201 (JsonDoc "organization" d)]) /\
    authenticate w1 (request (Some "token2") "" ∅) = Some U2 /\
    router sample_paths (endpoint Organization List) (request (Some "token2") "" ∅) w1
      = (w1, [StoreCall Organization find; sent 200 (JsonDocs "organizations" ds)]) /\
    d ∉ ds.
Proof.
  split; [reflexivity|].
  set (r := router sample_paths (endpoint Organization Create)
              (request (Some "token1") "" {[ "name" := "Food bank" ]}) sample_world).
  set (d := {| _id := "0";
               props := strict (schema sample_paths Organization)
                          (<["owner" := "U1"]> {[ "name" := "Food bank" ]}) |}).
  assert (Hrun : r = (r.1, [StoreCall Organization create;
                            sent 201 (JsonDoc "organization" d)]))
    by (vm_compute; reflexivity).
  assert (Hl : authenticate r.1 (request (Some "token2") "" ∅) = Some U2)
    by (vm_compute; reflexivity).
  destruct (created_organization_listed_to_creator sample_paths
              (request (Some "token1") "" {[ "name" := "Food bank" ]})
              (request (Some "token2") "" ∅) sample_world r.1 _ U1 U2 d
              eq_refl Hrun
              ltac:(apply list_elem_of_further, list_elem_of_here)
              Hl eq_refl) as [ds [Hlist Hiff]].
  exists r.1, d, ds. split; [exact Hrun|]. split; [exact Hl|]. split; [exact Hlist|].
  intros Hin. apply Hiff in Hin. discriminate Hin.
Defined.

(** U1 posts an array of one volunteer that names U2 as its owner. *)
Lemma array_reaches_create_witness :
  authenticate sample_world
    (flat_request (raw_request (Some "token1") "" volunteers_of_U2)) = Some U1 /\
  exists w' d,
    create_js (memory_store sample_paths) Volunteer volunteers_of_U2 sample_world
      = (Fulfilled (Many [d]), w', [StoreCall Volunteer create]) /\
    raw_router sample_paths (memory_store sample_paths) (endpoint Volunteer Create)
      (raw_request (Some "token1") "" volunteers_of_U2) sample_world
      = Ran w' [StoreCall Volunteer create; Raised (Unclassified "TypeError");
                sent 500 (JsonMessage "TypeError")] /\
    owner d = Some "U2" /\
    collection Volunteer w' !! _id d = Some (props d).
Proof.
  split; [reflexivity|].
  set (r := create_js (memory_store sample_paths) Volunteer volunteers_of_U2 sample_world).
  set (d := {| _id := "0";
               props := {[ "description" := "help"; "skills" := "driving";
                           "owner" := "U2" ]} |}).
  assert (Hcreate : r = (Fulfilled (Many [d]), r.1.2, [StoreCall Volunteer create]))
    by (vm_compute; reflexivity).
  exists r.1.2, d. split; [exact Hcreate|]. split.
  - apply (array_reaches_create sample_paths (memory_store sample_paths) Volunteer
             (raw_request (Some "token1") "" volunteers_of_U2) sample_world r.1.2 U1
             _ [d] [StoreCall Volunteer create] eq_refl eq_refl Hcreate).
  - split; vm_compute; reflexivity.
Defined.

(** U1, who owns the volunteer c1, patches it with an [owner] key and a
    [$set] operator on [owner]: the volunteer is U2's afterwards. *)
Lemma operators_reach_update_witness :
  (authenticate sample_world
     (flat_request (raw_request (Some "token1") "c1" owner_by_operator)) = Some U1 /\
   (collection Volunteer sample_world !! "c1") ≫= (.!! "owner") = Some "U1") /\
  exists w',
    raw_router sample_paths (memory_store sample_paths) (endpoint Volunteer Update)
      (raw_request (Some "token1") "c1" owner_by_operator) sample_world
      = Ran w' [StoreCall Volunteer findById; StoreCall Volunteer update;
                sent 204 NoBody] /\
    (collection Volunteer w' !! "c1") ≫= (.!! "owner") = Some "U2".
Proof.
  split; [split; reflexivity|].
  set (members := {[ "owner" := JString "U2";
                     "$set" := JObject {[ "owner" := JString "U2" ]} ]}
                  : gmap string JsValue).
  set (o := {[ "description" := "help"; "skills" := "driving"; "owner" := "U1" ]}
            : gmap string string).
  set (r := update_js (memory_store sample_paths) Volunteer {| _id := "c1"; props := o |}
              (JObject (js_sanitize members)) sample_world).
  assert (Hupdate : r = (Fulfilled tt, r.1.2, [StoreCall Volunteer update]))
    by (vm_compute; reflexivity).
  exists r.1.2. split.
  - apply (operators_reach_update sample_paths (memory_store sample_paths) Volunteer
             (raw_request (Some "token1") "c1" owner_by_operator) sample_world r.1.2 U1
             o members [StoreCall Volunteer update]
             eq_refl eq_refl eq_refl eq_refl eq_refl Hupdate).
  - vm_compute. reflexivity.
Defined.
